(** * The asset reconciliation sensor

    A shallow embedding of
    [dagster/_core/definitions/asset_reconciliation_sensor.py]:
    [_get_upstream_mapping], [_get_parent_updates] and the [sensor_fn]
    closure built by [_make_sensor], together with the properties of one
    sensor tick.

    Modelling conventions.
    - Timestamps are Python floats.  The sensor never does arithmetic on
      them: it compares them with [>], takes [max] and stores them.  They
      are modelled by the rationals [Q] with the same three operations.
    - Python [dict]s keep insertion order; they are association lists with
      the update-in-place-or-append behaviour of [d[k] = v].
    - Python [set]s are only iterated and tested for membership; a set is
      the list of its elements in iteration order.
    - Exceptions are an error result; the sensor context is passed
      explicitly. *)

From Stdlib Require Import QArith Lqa Ascii DecimalString.
From stdpp Require Import gmap strings list.

(** ** Exceptions *)

Inductive exn : Set :=
| JSONDecodeError
| CircularDependencyError.

Inductive result (A : Type) : Type :=
| Ok (a : A)
| Raise (e : exn).
Arguments Ok {A} a.
Arguments Raise {A} e.

Definition rbind {A B} (m : result A) (k : A → result B) : result B :=
  match m with
  | Ok a => k a
  | Raise e => Raise e
  end.

Notation "x ←r m ; k" := (rbind m (λ x, k))
  (at level 20, m at level 100, k at level 200, only parsing).

(** ** Python builtins used by the sensor *)

(** [x > y] on timestamps. *)
Definition Qgtb (x y : Q) : bool := negb (Qle_bool x y).

(** [max(l)]: the first maximal element.  Python raises [ValueError] on an
    empty list; the sensor only calls [max] on a list that ends with the
    child's cursor, so the empty case (given here as [0]) is never used. *)
Definition py_max (l : list Q) : Q :=
  match l with
  | [] => 0%Q
  | x :: xs => fold_left (λ m y, if Qgtb y m then y else m) xs x
  end.

Definition py_all (l : list bool) : bool := forallb id l.
Definition py_any (l : list bool) : bool := existsb id l.

(** Insertion-ordered dictionaries. *)
Module PyDict.
Section dict.
Context {K V : Type} `{EqDecision K}.

Fixpoint get (d : list (K * V)) (k : K) : option V :=
  match d with
  | [] => None
  | (k', v) :: d' => if decide (k = k') then Some v else get d' k
  end.

(** [d[k] = v] *)
Fixpoint set (k : K) (v : V) (d : list (K * V)) : list (K * V) :=
  match d with
  | [] => [(k, v)]
  | (k', v') :: d' =>
      if decide (k = k') then (k', v) :: d' else (k', v') :: set k v d'
  end.

(** [d.get(k, dflt)] *)
Definition get_default (d : list (K * V)) (k : K) (dflt : V) : V :=
  default dflt (get d k).

Definition keys (d : list (K * V)) : list K := d.*1.
Definition values (d : list (K * V)) : list V := d.*2.

(** [{k: v for k in ks}] *)
Definition from_keys (ks : list K) (v : V) : list (K * V) :=
  foldl (λ d k, set k v d) [] ks.

(** [for k in ks: d[k] = f(k)] *)
Definition assign_all (f : K → V) (ks : list K) (d : list (K * V)) :
    list (K * V) :=
  foldl (λ d k, set k (f k) d) d ks.
End dict.
End PyDict.

Abbreviation dict K V := (list (K * V)).

(** ** The event log and run storage, as the sensor queries them *)

Inductive DagsterEventType : Set :=
| ASSET_MATERIALIZATION
| ASSET_MATERIALIZATION_PLANNED.

#[global] Instance DagsterEventType_eq_dec : EqDecision DagsterEventType.
Proof. solve_decision. Defined.

(** ** What the sensor takes from outside this module

    - [str]: [str(asset_key)], the key of the cursor dictionary;
    - [json_loads]: [json.loads], restricted to what the sensor expects to
      read back (a dictionary from strings to numbers); anything else is
      an exception;
    - [json_dumps]: [json.dumps];
    - [toposort]: [toposort.toposort], forced by [list(...)]: the layers,
      each a set given in its iteration order, or
      [CircularDependencyError]. *)
Class Externals (AssetKey : Type) `{Countable AssetKey} : Type := {
  str : AssetKey → string;
  json_loads : string → result (dict string Q);
  json_dumps : dict string Q → string;
  toposort : gmap AssetKey (list AssetKey) → result (list (list AssetKey))
}.

Section Sensor.

Context {AssetKey : Type} `{Countable AssetKey} `{!Externals AssetKey}.

(** The fields of an event record that the sensor reads:
    [event_log_entry.run_id], [event_log_entry.timestamp] and
    [event_log_entry.dagster_event.event_specific_data.asset_key]. *)
Record EventLogRecord : Type := {
  run_id : string;
  timestamp : Q;
  asset_key : AssetKey
}.

(** The three queries of [context.instance] that the sensor makes.
    - [get_event_records ty p]: the records of type [ty] for asset [p],
      newest first ([ascending=False]), at most one ([limit=1]).
    - [get_runs ids]: the runs among [ids] whose status is one of
      [IN_PROGRESS_RUN_STATUSES], by id.
    - [get_records_for_run r ty]: the [.records] of type [ty] of run [r]. *)
Record DagsterInstance : Type := {
  get_event_records : DagsterEventType → AssetKey → list EventLogRecord;
  get_runs : list string → list string;
  get_records_for_run : string → DagsterEventType → list EventLogRecord
}.

Record SensorContext : Type := {
  instance : DagsterInstance;
  cursor : option string;
  cursor_has_been_updated : bool
}.

Record RunRequest : Type := {
  run_key : string;
  asset_selection : list AssetKey
}.

(** ** [_get_upstream_mapping]

    [selection_resolved] is [selection.resolve(...)]; [upstream_depth1 a]
    is [AssetSelection.keys(a).upstream(depth=1).resolve(...)], which
    includes [a] itself. *)
Definition _get_upstream_mapping
    (selection_resolved : list AssetKey)
    (upstream_depth1 : AssetKey → list AssetKey) :
    gmap AssetKey (list AssetKey) :=
  foldl (λ upstream a,
           <[a := filter (λ p, p ≠ a) (upstream_depth1 a)]> upstream)
        ∅ selection_resolved.

(** ** [_get_parent_updates] *)

Section parent_updates.
Variable inst : DagsterInstance.
Variable current_asset : AssetKey.
Variable parent_assets : list AssetKey.
Variable cursor_timestamp : Q.
Variable will_materialize_list : list AssetKey.
Variable wait_for_in_progress_runs : bool.

(** Lines 99-118: the most recent planned materialization of [p] belongs
    to a run that is in progress. *)
Definition planned_in_progress (p : AssetKey) : bool :=
  match get_event_records inst ASSET_MATERIALIZATION_PLANNED p with
  | [] => false
  | r :: _ =>
      match get_runs inst [run_id r] with
      | [] => false
      | _ :: _ => true
      end
  end.

(** Lines 126-161: the entry of a parent that will not be launched by
    this tick, from its latest completed materialization. *)
Definition completed_status (p : AssetKey) : bool * Q :=
  match get_event_records inst ASSET_MATERIALIZATION p with
  | r :: _ =>
      if Qgtb (timestamp r) cursor_timestamp then
        let other_materialized_assets :=
          asset_key <$>
            get_records_for_run inst (run_id r)
              ASSET_MATERIALIZATION_PLANNED in
        if bool_decide (current_asset ∈ other_materialized_assets)
        then (false, timestamp r)
        else (true, timestamp r)
      else (false, 0%Q)
  | [] => (false, 0%Q)
  end.

(** The [for p in parent_assets] loop; [records] is
    [parent_asset_event_records] so far.  The [return] inside the loop
    ends the recursion. *)
Fixpoint parent_updates_loop (ps : list AssetKey)
    (records : dict AssetKey (bool * Q)) : dict AssetKey (bool * Q) :=
  match ps with
  | [] => records
  | p :: ps' =>
      if bool_decide (p ∈ will_materialize_list) then
        parent_updates_loop ps' (PyDict.set p (true, 0%Q) records)
      else if wait_for_in_progress_runs && planned_in_progress p then
        PyDict.from_keys parent_assets (false, 0%Q)
      else
        parent_updates_loop ps' (PyDict.set p (completed_status p) records)
  end.

Definition _get_parent_updates : dict AssetKey (bool * Q) :=
  parent_updates_loop parent_assets [].
End parent_updates.

(** ** [sensor_fn], the tick

    [upstream], [and_condition] and [wait_for_in_progress_runs] are the
    variables the closure captures. *)

Section tick.
Variable upstream : gmap AssetKey (list AssetKey).
Variable and_condition : bool.
Variable wait_for_in_progress_runs : bool.

(** Lines 200-204. *)
Definition toposort_assets (layers : list (list AssetKey)) :
    list AssetKey :=
  filter (λ asset, asset ∈ dom upstream) (concat layers).

(** Line 195. *)
Definition load_cursor (c : option string) : result (dict string Q) :=
  match c with
  | None => Ok []
  | Some s => if decide (s = EmptyString) then Ok [] else json_loads s
  end.

Definition condition (statuses : list bool) : bool :=
  if and_condition then py_all statuses else py_any statuses.

(** The body of the loop of lines 208-230, on the pair
    [(should_materialize, cursor_update_dict)]. *)
Definition sensor_step (inst : DagsterInstance)
    (cursor_dict : dict string Q)
    (st : list AssetKey * dict string Q) (a : AssetKey) :
    list AssetKey * dict string Q :=
  let '(should_materialize, cursor_update_dict) := st in
  let a_cursor := PyDict.get_default cursor_dict (str a) 0%Q in
  let cursor_update_dict := PyDict.set (str a) a_cursor cursor_update_dict in
  let parent_update_records :=
    _get_parent_updates inst a (default [] (upstream !! a)) a_cursor
      should_materialize wait_for_in_progress_runs in
  if condition (fst <$> PyDict.values parent_update_records) then
    (should_materialize ++ [a],
     PyDict.set (str a)
       (py_max ((snd <$> PyDict.values parent_update_records) ++ [a_cursor]))
       cursor_update_dict)
  else (should_materialize, cursor_update_dict).

(** What one iteration computes for the asset [a], with
    [should_materialize] as it is when [a] is reached: the cursor read
    for [a] (line 209), the parent records (lines 211-218), the launch
    decision (lines 220-226) and the new cursor value of a launched
    asset (lines 228-230). *)
Definition a_cursor (cursor_dict : dict string Q) (a : AssetKey) : Q :=
  PyDict.get_default cursor_dict (str a) 0%Q.

Definition parent_update_records (inst : DagsterInstance)
    (cursor_dict : dict string Q) (should_materialize : list AssetKey)
    (a : AssetKey) : dict AssetKey (bool * Q) :=
  _get_parent_updates inst a (default [] (upstream !! a))
    (a_cursor cursor_dict a) should_materialize wait_for_in_progress_runs.

Definition launches (inst : DagsterInstance)
    (cursor_dict : dict string Q) (should_materialize : list AssetKey)
    (a : AssetKey) : bool :=
  condition
    (fst <$> PyDict.values
       (parent_update_records inst cursor_dict should_materialize a)).

Definition launched_cursor (inst : DagsterInstance)
    (cursor_dict : dict string Q) (should_materialize : list AssetKey)
    (a : AssetKey) : Q :=
  py_max
    ((snd <$> PyDict.values
        (parent_update_records inst cursor_dict should_materialize a))
     ++ [a_cursor cursor_dict a]).

Definition sensor_loop (inst : DagsterInstance)
    (cursor_dict : dict string Q) (assets : list AssetKey) :
    list AssetKey * dict string Q :=
  foldl (sensor_step inst cursor_dict) ([], []) assets.

(** Lines 195-230: what the tick decides, the pair
    [(should_materialize, cursor_update_dict)] when the loop ends. *)
Definition tick_decision (context : SensorContext) :
    result (list AssetKey * dict string Q) :=
  cursor_dict ←r load_cursor (cursor context);
  layers ←r toposort upstream;
  Ok (sensor_loop (instance context) cursor_dict (toposort_assets layers)).

(** Lines 232-235; a tick without a run request returns [None]. *)
Definition sensor_fn (context : SensorContext) :
    result (SensorContext * option RunRequest) :=
  decision ←r tick_decision context;
  let '(should_materialize, cursor_update_dict) := decision in
  if bool_decide (0 < length should_materialize)%nat then
    let new_cursor := json_dumps cursor_update_dict in
    Ok ({| instance := instance context;
           cursor := Some new_cursor;
           cursor_has_been_updated := true |},
        Some {| run_key := new_cursor;
                asset_selection := should_materialize |})
  else Ok (context, None).
End tick.

End Sensor.

Arguments EventLogRecord AssetKey : clear implicits.
Arguments DagsterInstance AssetKey : clear implicits.
Arguments SensorContext AssetKey : clear implicits.
Arguments RunRequest AssetKey : clear implicits.


(** ** What the sensor relies on from [toposort.toposort]

    The layers returned for [upstream] list no item twice, contain every
    key of [upstream], and place every dependency of an item (other than
    the item itself) in a strictly earlier layer.  [seen] is the content
    of the layers already passed. *)
Section toposort_contract.
Context {AssetKey : Type} `{Countable AssetKey}.
Variable upstream : gmap AssetKey (list AssetKey).

Fixpoint layers_respect (seen : list AssetKey)
    (layers : list (list AssetKey)) : Prop :=
  match layers with
  | [] => True
  | layer :: rest =>
      Forall (λ b,
        Forall (λ a, a = b ∨ a ∈ seen) (default [] (upstream !! b))) layer
      ∧ layers_respect (seen ++ layer) rest
  end.

Definition toposort_contract (layers : list (list AssetKey)) : Prop :=
  NoDup (concat layers)
  ∧ Forall (λ a, a ∈ concat layers) (elements (dom upstream))
  ∧ layers_respect [] layers.

#[global] Instance layers_respect_dec seen layers :
  Decision (layers_respect seen layers).
Proof.
  revert seen. induction layers as [|layer rest IH]; intros seen; simpl;
    apply _.
Defined.

#[global] Instance toposort_contract_dec layers :
  Decision (toposort_contract layers).
Proof. unfold toposort_contract. apply _. Defined.
End toposort_contract.

(** ** A reference model of [toposort.toposort]

    The layering of the [toposort] package: self-dependencies are
    discarded, items that only occur as dependencies get an empty
    dependency set, and each round yields the items without remaining
    dependencies and removes them from the others.  A round that yields
    nothing ends the loop; data left over is a cycle.  Every round but the
    last removes an item, so [length data] rounds suffice. *)
Section toposort_model.
Context {K : Type} `{Countable K}.

Definition ready (data : dict K (list K)) : list K :=
  (filter (λ kv, kv.2 = []) data).*1.

Definition prune (ordered : list K) (data : dict K (list K)) :
    dict K (list K) :=
  (λ kv, (kv.1, filter (λ dep, dep ∉ ordered) kv.2))
    <$> filter (λ kv, kv.1 ∉ ordered) data.

Fixpoint kahn_layers (fuel : nat) (data : dict K (list K)) :
    result (list (list K)) :=
  match ready data with
  | [] =>
      match data with
      | [] => Ok []
      | _ :: _ => Raise CircularDependencyError
      end
  | ordered =>
      match fuel with
      | O => Raise CircularDependencyError
      | S fuel' =>
          rest ←r kahn_layers fuel' (prune ordered data);
          Ok (ordered :: rest)
      end
  end.

Definition toposort_data (upstream : gmap K (list K)) : dict K (list K) :=
  let data :=
    (λ kv, (kv.1, filter (λ dep, dep ≠ kv.1) kv.2))
      <$> map_to_list upstream in
  let extra_items_in_deps :=
    filter (λ dep, dep ∉ data.*1) (remove_dups (concat data.*2)) in
  data ++ ((λ item, (item, [])) <$> extra_items_in_deps).

Definition toposort_model (upstream : gmap K (list K)) :
    result (list (list K)) :=
  let data := toposort_data upstream in
  kahn_layers (length data) data.
End toposort_model.

(** ** A cursor codec and an event store, to run the sensor

    [cursor_dumps] writes a cursor dictionary as [{key=num/den;...}] and
    [cursor_loads] reads that format back, raising on anything else; the
    two stand for [json.dumps] and [json.loads], whose text format plays
    no role in the sensor. *)
Module Store.

Definition show_Q (q : Q) : string :=
  NilZero.string_of_int (Z.to_int (Qnum q)) +:+ "/"
  +:+ NilZero.string_of_uint (Pos.to_uint (Qden q)).

Definition read_Q (s : string) : option Q :=
  match String.index 0 "/" s with
  | None => None
  | Some i =>
      match NilZero.int_of_string (String.substring 0 i s),
            NilZero.uint_of_string
              (String.substring (S i) (String.length s - S i) s) with
      | Some n, Some d =>
          match Pos.of_uint d with
          | Npos den => Some (Qmake (Z.of_int n) den)
          | N0 => None
          end
      | _, _ => None
      end
  end.

Definition cursor_dumps (d : dict string Q) : string :=
  "{" +:+ String.concat EmptyString
            ((λ kv, kv.1 +:+ "=" +:+ show_Q kv.2 +:+ ";") <$> d) +:+ "}".

Fixpoint read_entries (fuel : nat) (s : string) : result (dict string Q) :=
  match fuel with
  | O => Raise JSONDecodeError
  | S fuel' =>
      if decide (s = "}") then Ok []
      else
        match String.index 0 ";" s with
        | None => Raise JSONDecodeError
        | Some i =>
            let entry := String.substring 0 i s in
            let rest := String.substring (S i) (String.length s - S i) s in
            match String.index 0 "=" entry with
            | None => Raise JSONDecodeError
            | Some j =>
                match read_Q (String.substring (S j)
                                (String.length entry - S j) entry) with
                | None => Raise JSONDecodeError
                | Some q =>
                    d ←r read_entries fuel' rest;
                    Ok ((String.substring 0 j entry, q) :: d)
                end
            end
        end
  end.

Definition cursor_loads (s : string) : result (dict string Q) :=
  match s with
  | String "{"%char rest => read_entries (String.length s) rest
  | _ => Raise JSONDecodeError
  end.

(** Asset keys with a one-component path; [str(AssetKey(['a']))] is
    [AssetKey(['a'])]. *)
Definition key_str (a : string) : string := "AssetKey(['" +:+ a +:+ "'])".

#[export] Instance externals : Externals string := {|
  str := key_str;
  json_loads := cursor_loads;
  json_dumps := cursor_dumps;
  toposort := toposort_model
|}.

(** The same, with [toposort] handing out each layer in the reverse
    iteration order. *)
Definition externals_rev : Externals string := {|
  str := key_str;
  json_loads := cursor_loads;
  json_dumps := cursor_dumps;
  toposort := λ upstream,
    layers ←r toposort_model upstream; Ok (reverse <$> layers)
|}.

(** Modelled from the spec: the event log and run storage behind
    [context.instance], which are not part of this module.  The store is
    the list of events in the order they were recorded and the ids of the
    runs in a non-terminal state; [get_event_records] gives the most
    recent event of a type for an asset, [get_runs] the runs among the
    given ids that are in progress, [get_records_for_run] the events of
    a type recorded inside a run. *)
Definition event_store (log : list (DagsterEventType * EventLogRecord string))
    (in_progress_runs : list string) : DagsterInstance string := {|
  get_event_records ty p :=
    take 1 (reverse
      ((filter (λ e, e.1 = ty ∧ asset_key e.2 = p) log).*2));
  get_runs ids := filter (λ r, r ∈ in_progress_runs) ids;
  get_records_for_run r ty :=
    (filter (λ e, e.1 = ty ∧ run_id e.2 = r) log).*2
|}.

(** A run that planned and then materialized [assets] at time [t]. *)
Definition completed_run (r : string) (t : Q) (assets : list string) :
    list (DagsterEventType * EventLogRecord string) :=
  ((λ a, (ASSET_MATERIALIZATION_PLANNED,
          {| run_id := r; timestamp := t; asset_key := a |})) <$> assets)
  ++ ((λ a, (ASSET_MATERIALIZATION,
             {| run_id := r; timestamp := t; asset_key := a |})) <$> assets).

(** A run that planned [assets] at time [t] and has materialized nothing
    yet. *)
Definition started_run (r : string) (t : Q) (assets : list string) :
    list (DagsterEventType * EventLogRecord string) :=
  (λ a, (ASSET_MATERIALIZATION_PLANNED,
         {| run_id := r; timestamp := t; asset_key := a |})) <$> assets.

Definition context_of (inst : DagsterInstance string) (c : option string) :
    SensorContext string :=
  {| instance := inst; cursor := c; cursor_has_been_updated := false |}.

(** The context and the run request that a tick returns when it writes
    the cursor dictionary [nc] and launches [assets]. *)
Definition written_context (inst : DagsterInstance string)
    (nc : dict string Q) : SensorContext string :=
  {| instance := inst; cursor := Some (cursor_dumps nc);
     cursor_has_been_updated := true |}.

Definition request_for (nc : dict string Q) (assets : list string) :
    RunRequest string :=
  {| run_key := cursor_dumps nc; asset_selection := assets |}.

(** The graph of the docstring of [build_asset_reconciliation_sensor]:
    [a -> d], [b -> d], [b -> e], [c -> e], [d -> f], [e -> f], with
    [d], [e] and [f] selected. *)
Definition depth1 (a : string) : list string :=
  if decide (a = "d") then ["a"; "b"; "d"]
  else if decide (a = "e") then ["b"; "c"; "e"]
  else if decide (a = "f") then ["d"; "e"; "f"]
  else [a].

Definition def_upstream : gmap string (list string) :=
  _get_upstream_mapping ["d"; "e"; "f"] depth1.

(** The parents [a], [b] and [c] materialized at times 1, 2 and 3; the
    cursor written by the tick that follows. *)
Definition upstream_runs : list (DagsterEventType * EventLogRecord string) :=
  completed_run "r1" 1 ["a"] ++ completed_run "r2" 2 ["b"]
  ++ completed_run "r3" 3 ["c"].

Definition first_cursor : dict string Q :=
  [(key_str "e", 3%Q); (key_str "d", 2%Q); (key_str "f", 0%Q)].

(** Then a run materializes [b] and [d] together at time 6. *)
Definition co_materialization :
    list (DagsterEventType * EventLogRecord string) :=
  upstream_runs ++ completed_run "r4" 6 ["b"; "d"].

(** Or [a] is materialized again at time 4. *)
Definition a_again : list (DagsterEventType * EventLogRecord string) :=
  upstream_runs ++ completed_run "r4" 4 ["a"].

(** Or a run that planned [c] is in progress. *)
Definition c_in_flight : list (DagsterEventType * EventLogRecord string) :=
  upstream_runs ++ started_run "r4" 4 ["c"].

(** The chain [a -> p -> c] with [p] and [c] selected. *)
Definition chain_depth1 (x : string) : list string :=
  if decide (x = "p") then ["a"; "p"]
  else if decide (x = "c") then ["p"; "c"]
  else [x].

Definition chain_upstream : gmap string (list string) :=
  _get_upstream_mapping ["p"; "c"] chain_depth1.

(** [a] materialized at time 5; a run that planned [p] is in progress. *)
Definition p_in_flight : list (DagsterEventType * EventLogRecord string) :=
  completed_run "r1" 5 ["a"] ++ started_run "r2" 6 ["p"].

(** A run that planned [p] at time 1 is still in progress; a later run
    planned and materialized [p] at time 2. *)
Definition p_older_run_in_flight :
    list (DagsterEventType * EventLogRecord string) :=
  started_run "r0" 1 ["p"] ++ completed_run "r1" 2 ["p"].



(** Only [b] materialized again, at time 4. *)
Definition b_again : list (DagsterEventType * EventLogRecord string) :=
  upstream_runs ++ completed_run "r4" 4 ["b"].

(** A run that planned [a] is in progress. *)
Definition a_in_flight : list (DagsterEventType * EventLogRecord string) :=
  upstream_runs ++ started_run "r4" 4 ["a"].

End Store.

(** * The Airbyte reconciler, [dagster_airbyte/managed.py]

    [reconcile_sources], [reconcile_destinations] and
    [reconcile_normalization] with the functions they call in the file.
    The Airbyte types, the resource [res] and the stack diffs are defined
    elsewhere; of the types only the fields read here are kept, and the
    rest is taken as given:
    - [Config]: a configuration dictionary, [{}] being [empty_config];
    - [Operation]: the JSON of an operation, with its ["operationId"]
      and the test [is_basic_normalization_operation];
    - [Response]: what [res.make_request] returns, with ["sourceId"],
      ["destinationId"] or ["operationId"] read by [response_id] and
      ["operations"] by [response_operations];
    - [Diff]: [ManagedStackDiff], with [ManagedStackDiff()],
      [ManagedStackDiff(sort=BY_KEY)], [with_nested] and [join], and
      [diff_dicts];
    - the lookups of [res] that the file calls.
    A call to [res.make_request] appends the request to the log of the
    requests sent so far and gets the response of the server, which may
    depend on that log.  An exception keeps the log. *)
Module Airbyte.

Inductive error : Type :=
| AttributeError
| TypeError
| Exception (message : string).

Module AirbyteSource.
Record t (Config : Type) : Type := {
  name : string;
  source_type : string;
  source_configuration : Config
}.
Arguments name {Config} _.
Arguments source_type {Config} _.
Arguments source_configuration {Config} _.
End AirbyteSource.

Module AirbyteDestination.
Record t (Config : Type) : Type := {
  name : string;
  destination_type : string;
  destination_configuration : Config
}.
Arguments name {Config} _.
Arguments destination_type {Config} _.
Arguments destination_configuration {Config} _.
End AirbyteDestination.

Module InitializedAirbyteSource.
Record t (Config : Type) : Type := {
  source : AirbyteSource.t Config;
  source_id : string;
  source_definition_id : string
}.
Arguments source {Config} _.
Arguments source_id {Config} _.
Arguments source_definition_id {Config} _.
End InitializedAirbyteSource.

Module InitializedAirbyteDestination.
Record t (Config : Type) : Type := {
  destination : AirbyteDestination.t Config;
  destination_id : string;
  destination_definition_id : string
}.
Arguments destination {Config} _.
Arguments destination_id {Config} _.
Arguments destination_definition_id {Config} _.
End InitializedAirbyteDestination.

(** The requests the three functions send: the endpoint and the fields
    of [data]. *)
Inductive Request (Config : Type) : Type :=
| sources_delete (sourceId : string)
| sources_update (sourceId name : string) (connectionConfiguration : Config)
| sources_create (sourceDefinitionId workspaceId name : string)
    (connectionConfiguration : Config)
| destinations_delete (destinationId : string)
| destinations_update (destinationId name : string)
    (connectionConfiguration : Config)
| destinations_create (destinationDefinitionId workspaceId name : string)
    (connectionConfiguration : Config)
| operations_list (connectionId : string)
| operations_create (workspaceId : string).
Arguments sources_delete {Config} _.
Arguments sources_update {Config} _ _ _.
Arguments sources_create {Config} _ _ _ _.
Arguments destinations_delete {Config} _.
Arguments destinations_update {Config} _ _ _.
Arguments destinations_create {Config} _ _ _ _.
Arguments operations_list {Config} _.
Arguments operations_create {Config} _.

(** What the file takes from the resource, the types and the diffs. *)
Class Resource (Config Operation Response Diff : Type) : Type := {
  respond : list (Request Config) → Request Config → Response;
  response_id : Response → string;
  response_operations : Response → list Operation;
  operationId : Operation → string;
  is_basic_normalization_operation : Operation → bool;
  get_source_definition_by_name : string → string → string;
  get_destination_definition_by_name : string → string → string;
  does_dest_support_normalization :
    InitializedAirbyteDestination.t Config → string → bool;
  source_must_be_recreated :
    AirbyteSource.t Config → AirbyteSource.t Config → bool;
  empty_config : Config;
  diff_dicts : Config → Config → bool * Diff;
  ManagedStackDiff : Diff;
  ManagedStackDiff_by_key : Diff;
  with_nested : Diff → string → Diff → Diff;
  join : Diff → Diff → Diff
}.

Section managed.
Context {Config Operation Response Diff : Type}.
Context `{!Resource Config Operation Response Diff}.

(** Computations that send requests and may raise. *)
Definition M (A : Type) : Type :=
  list (Request Config) → (A + error) * list (Request Config).

Definition ret {A} (a : A) : M A := λ log, (inl a, log).

Definition raise {A} (e : error) : M A := λ log, (inr e, log).

Definition bind {A B} (m : M A) (k : A → M B) : M B :=
  λ log,
    match m log with
    | (inl a, log') => k a log'
    | (inr e, log') => (inr e, log')
    end.

Definition make_request (r : Request Config) : M Response :=
  λ log, (inl (respond log r), log ++ [r]).

Notation "x ←m m ; k" := (bind m (λ x, k))
  (at level 20, m at level 100, k at level 200, only parsing).

(** The truth value of an optional string: [None] and the empty string
    are false. *)
Definition truthy (s : option string) : bool :=
  match s with
  | Some s => negb (bool_decide (s = EmptyString))
  | None => false
  end.

(** [set(a).union(b)], in an iteration order. *)
Definition set_union (a b : list string) : list string :=
  remove_dups (a ++ b).

(** Lines 22-32.  When both arguments are [None] and the dictionaries
    differ, [curr_src.name] is an attribute of [None]. *)
Definition diff_sources
    (config_src curr_src : option (AirbyteSource.t Config)) : M Diff :=
  let '(dicts_same, diff) :=
    diff_dicts
      (from_option AirbyteSource.source_configuration empty_config config_src)
      (from_option AirbyteSource.source_configuration empty_config curr_src) in
  if negb dicts_same then
    match config_src, curr_src with
    | Some src, _ => ret (with_nested ManagedStackDiff (AirbyteSource.name src) diff)
    | None, Some src =>
        ret (with_nested ManagedStackDiff (AirbyteSource.name src) diff)
    | None, None => raise AttributeError
    end
  else ret ManagedStackDiff.

(** Lines 35-47. *)
Definition diff_destinations
    (config_dst curr_dst : option (AirbyteDestination.t Config)) : M Diff :=
  let '(dicts_same, diff) :=
    diff_dicts
      (from_option AirbyteDestination.destination_configuration empty_config
         config_dst)
      (from_option AirbyteDestination.destination_configuration empty_config
         curr_dst) in
  if negb dicts_same then
    match config_dst, curr_dst with
    | Some dst, _ =>
        ret (with_nested ManagedStackDiff (AirbyteDestination.name dst) diff)
    | None, Some dst =>
        ret (with_nested ManagedStackDiff (AirbyteDestination.name dst) diff)
    | None, None => raise AttributeError
    end
  else ret ManagedStackDiff.

(** The body of the loop of lines 85-134, on the pair
    [(initialized_sources, diff)]. *)
Definition reconcile_sources_step
    (config_sources : dict string (AirbyteSource.t Config))
    (existing_sources : dict string (InitializedAirbyteSource.t Config))
    (workspace_id : string) (dry_run : bool)
    (st : dict string (option (InitializedAirbyteSource.t Config)) * Diff)
    (source_name : string) :
    M (dict string (option (InitializedAirbyteSource.t Config)) * Diff) :=
  let '(initialized_sources, diff) := st in
  let configured_source := PyDict.get config_sources source_name in
  let existing_source := PyDict.get existing_sources source_name in
  d ←m diff_sources configured_source
         (InitializedAirbyteSource.source <$> existing_source);
  let diff := join diff d in
  deleted ←m
    (if match configured_source, existing_source with
        | None, _ => true
        | Some configured, Some existing =>
            source_must_be_recreated configured
              (InitializedAirbyteSource.source existing)
        | Some _, None => false
        end
     then
       let initialized_sources :=
         PyDict.set source_name existing_source initialized_sources in
       _ ←m (if negb dry_run then
               match existing_source with
               | Some existing =>
                   _ ←m make_request
                          (sources_delete
                             (InitializedAirbyteSource.source_id existing));
                   ret tt
               | None => raise AttributeError
               end
             else ret tt);
       ret (initialized_sources, None)
     else ret (initialized_sources, existing_source));
  let '(initialized_sources, existing_source) := deleted in
  match configured_source with
  | Some configured =>
      let defn_id :=
        get_source_definition_by_name (AirbyteSource.source_type configured)
          workspace_id in
      source_id ←m
        match existing_source with
        | Some existing =>
            let source_id := InitializedAirbyteSource.source_id existing in
            if negb dry_run then
              _ ←m make_request
                     (sources_update source_id (AirbyteSource.name configured)
                        (AirbyteSource.source_configuration configured));
              ret source_id
            else ret source_id
        | None =>
            if negb dry_run then
              create_result ←m
                make_request
                  (sources_create defn_id workspace_id
                     (AirbyteSource.name configured)
                     (AirbyteSource.source_configuration configured));
              ret (response_id create_result)
            else ret "TBD"%string
        end;
      ret (PyDict.set source_name
             (Some {| InitializedAirbyteSource.source := configured;
                      InitializedAirbyteSource.source_id := source_id;
                      InitializedAirbyteSource.source_definition_id :=
                        defn_id |})
             initialized_sources,
           diff)
  | None => ret (initialized_sources, diff)
  end.

Fixpoint for_each {S A : Type} (body : S → A → M S) (st : S) (xs : list A) :
    M S :=
  match xs with
  | [] => ret st
  | x :: xs' => st' ←m body st x; for_each body st' xs'
  end.

(** Lines 74-136. *)
Definition reconcile_sources
    (config_sources : dict string (AirbyteSource.t Config))
    (existing_sources : dict string (InitializedAirbyteSource.t Config))
    (workspace_id : string) (dry_run : bool) :
    M (dict string (option (InitializedAirbyteSource.t Config)) * Diff) :=
  for_each
    (reconcile_sources_step config_sources existing_sources workspace_id
       dry_run)
    ([], ManagedStackDiff_by_key)
    (set_union (PyDict.keys config_sources) (PyDict.keys existing_sources)).

(** The body of the loop of lines 150-200. *)
Definition reconcile_destinations_step
    (config_destinations : dict string (AirbyteDestination.t Config))
    (existing_destinations :
       dict string (InitializedAirbyteDestination.t Config))
    (workspace_id : string) (dry_run : bool)
    (st : dict string (option (InitializedAirbyteDestination.t Config)) * Diff)
    (destination_name : string) :
    M (dict string (option (InitializedAirbyteDestination.t Config)) * Diff) :=
  let '(initialized_destinations, diff) := st in
  let configured_destination :=
    PyDict.get config_destinations destination_name in
  let existing_destination :=
    PyDict.get existing_destinations destination_name in
  d ←m diff_destinations configured_destination
         (InitializedAirbyteDestination.destination <$> existing_destination);
  let diff := join diff d in
  match configured_destination with
  | None =>
      let initialized_destinations :=
        PyDict.set destination_name existing_destination
          initialized_destinations in
      if negb dry_run then
        match existing_destination with
        | Some existing =>
            _ ←m make_request
                   (destinations_delete
                      (InitializedAirbyteDestination.destination_id existing));
            ret (initialized_destinations, diff)
        | None => raise AttributeError
        end
      else ret (initialized_destinations, diff)
  | Some configured =>
      let defn_id :=
        get_destination_definition_by_name
          (AirbyteDestination.destination_type configured) workspace_id in
      destination_id ←m
        match existing_destination with
        | Some existing =>
            let destination_id :=
              InitializedAirbyteDestination.destination_id existing in
            if negb dry_run then
              _ ←m make_request
                     (destinations_update destination_id
                        (AirbyteDestination.name configured)
                        (AirbyteDestination.destination_configuration
                           configured));
              ret destination_id
            else ret destination_id
        | None =>
            if negb dry_run then
              create_result ←m
                make_request
                  (destinations_create defn_id workspace_id
                     (AirbyteDestination.name configured)
                     (AirbyteDestination.destination_configuration
                        configured));
              ret (response_id create_result)
            else ret "TBD"%string
        end;
      ret (PyDict.set destination_name
             (Some {| InitializedAirbyteDestination.destination := configured;
                      InitializedAirbyteDestination.destination_id :=
                        destination_id;
                      InitializedAirbyteDestination.destination_definition_id :=
                        defn_id |})
             initialized_destinations,
           diff)
  end.

(** Lines 139-202. *)
Definition reconcile_destinations
    (config_destinations : dict string (AirbyteDestination.t Config))
    (existing_destinations :
       dict string (InitializedAirbyteDestination.t Config))
    (workspace_id : string) (dry_run : bool) :
    M (dict string (option (InitializedAirbyteDestination.t Config)) * Diff) :=
  for_each
    (reconcile_destinations_step config_destinations existing_destinations
       workspace_id dry_run)
    ([], ManagedStackDiff_by_key)
    (set_union (PyDict.keys config_destinations)
       (PyDict.keys existing_destinations)).

(** Lines 257-296.  [next(..., None)["operationId"]] subscripts [None]
    when no operation passes the test. *)
Definition reconcile_normalization
    (existing_connection_id : option string)
    (destination : InitializedAirbyteDestination.t Config)
    (normalization_config : option bool) (workspace_id : string) :
    M (option string) :=
  existing_basic_norm_op_id ←m
    match existing_connection_id with
    | Some connection_id =>
        if truthy existing_connection_id then
          operations ←m make_request (operations_list connection_id);
          match List.find is_basic_normalization_operation
                  (response_operations operations) with
          | Some operation => ret (Some (operationId operation))
          | None => raise TypeError
          end
        else ret None
    | None => ret None
    end;
  if negb (bool_decide (normalization_config = Some false)) then
    if does_dest_support_normalization destination workspace_id then
      if truthy existing_basic_norm_op_id then ret existing_basic_norm_op_id
      else
        created ←m make_request (operations_create workspace_id);
        ret (Some (response_id created))
    else if bool_decide (normalization_config = Some true) then
      raise (Exception
               ("Destination "
                +:+ AirbyteDestination.name
                      (InitializedAirbyteDestination.destination destination)
                +:+ " does not support normalization."))
    else ret None
  else ret None.

End managed.
End Airbyte.

(** ** More inputs to run the code on *)
Module Examples.
Import Store Airbyte.

(** The graph of the second part of the docstring of
    [build_asset_reconciliation_sensor]: [x -> y] and
    [source_asset -> y], with [y] selected; [x] materialized at time 1
    and the source asset never. *)
Definition y_upstream : gmap string (list string) :=
  _get_upstream_mapping ["y"]
    (λ a, if decide (a = "y") then ["x"; "source_asset"; "y"] else [a]).

Definition x_run : list (DagsterEventType * EventLogRecord string) :=
  completed_run "r1" 1 ["x"].

(** A server for the Airbyte reconciler.  Configurations are strings; an
    operation is its id and whether it is a basic normalization; a
    response is an id and a list of operations.  The connection
    [conn-1] has a basic normalization operation, any other connection
    has another operation only; only [postgres] destinations support
    normalization; a source must be recreated when its type changes. *)
#[export] Instance server :
    Resource string (string * bool) (string * list (string * bool))
      (list string) := {|
  respond log r :=
    match r with
    | operations_list connection_id =>
        (EmptyString,
         if decide (connection_id = "conn-1")
         then [("op-5", false); ("op-7", true)]
         else [("op-8", false)])
    | operations_create _ => ("op-new", [])
    | sources_create _ _ name _ => ("new-" +:+ name, [])
    | destinations_create _ _ name _ => ("new-" +:+ name, [])
    | _ => (EmptyString, [])
    end;
  response_id := fst;
  response_operations := snd;
  operationId := fst;
  is_basic_normalization_operation := snd;
  get_source_definition_by_name ty _ := "def-" +:+ ty;
  get_destination_definition_by_name ty _ := "def-" +:+ ty;
  does_dest_support_normalization d _ :=
    bool_decide
      (AirbyteDestination.destination_type
         (InitializedAirbyteDestination.destination d) = "postgres");
  source_must_be_recreated a b :=
    negb (bool_decide
            (AirbyteSource.source_type a = AirbyteSource.source_type b));
  empty_config := EmptyString;
  diff_dicts a b := (bool_decide (a = b), [a; b]);
  ManagedStackDiff := [];
  ManagedStackDiff_by_key := [];
  with_nested d name d' := d ++ name :: d';
  join d d' := d ++ d'
|}.

Definition a_source (name ty config : string) : AirbyteSource.t string :=
  {| AirbyteSource.name := name;
     AirbyteSource.source_type := ty;
     AirbyteSource.source_configuration := config |}.

Definition an_existing_source (name ty config id : string) :
    InitializedAirbyteSource.t string :=
  {| InitializedAirbyteSource.source := a_source name ty config;
     InitializedAirbyteSource.source_id := id;
     InitializedAirbyteSource.source_definition_id := "def-" +:+ ty |}.

(** Configured: [s1] (new), [s2] (exists with another type) and [s4]
    (exists, other configuration).  Existing: [s2], [s3] and [s4]. *)
Definition config_sources : dict string (AirbyteSource.t string) :=
  [("s1", a_source "s1" "file" "path=/a");
   ("s2", a_source "s2" "postgres" "host=h");
   ("s4", a_source "s4" "file" "path=/new")].

Definition existing_sources :
    dict string (InitializedAirbyteSource.t string) :=
  [("s2", an_existing_source "s2" "mysql" "host=h" "id-2");
   ("s3", an_existing_source "s3" "file" "path=/c" "id-3");
   ("s4", an_existing_source "s4" "file" "path=/old" "id-4")].

Definition a_destination (name ty config : string) :
    AirbyteDestination.t string :=
  {| AirbyteDestination.name := name;
     AirbyteDestination.destination_type := ty;
     AirbyteDestination.destination_configuration := config |}.

Definition an_existing_destination (name ty config id : string) :
    InitializedAirbyteDestination.t string :=
  {| InitializedAirbyteDestination.destination := a_destination name ty config;
     InitializedAirbyteDestination.destination_id := id;
     InitializedAirbyteDestination.destination_definition_id :=
       "def-" +:+ ty |}.

(** Configured: [d1] (new) and [d2] (exists with another type).
    Existing: [d2] and [d3]. *)
Definition config_destinations : dict string (AirbyteDestination.t string) :=
  [("d1", a_destination "d1" "postgres" "host=h");
   ("d2", a_destination "d2" "postgres" "host=k")].

Definition existing_destinations :
    dict string (InitializedAirbyteDestination.t string) :=
  [("d2", an_existing_destination "d2" "local-json" "dir=/x" "id-d2");
   ("d3", an_existing_destination "d3" "local-json" "dir=/y" "id-d3")].

End Examples.
(** * Properties *)

(** ** Timestamps and [max] *)

Lemma Qgtb_true (x y : Q) : Qgtb x y = true ↔ (y < x)%Q.
Proof.
  unfold Qgtb. rewrite negb_true_iff, <- not_true_iff_false, Qle_bool_iff.
  split; [apply Qnot_le_lt | apply Qlt_not_le].
Qed.

Lemma Qgtb_false (x y : Q) : Qgtb x y = false ↔ (x <= y)%Q.
Proof.
  unfold Qgtb. rewrite negb_false_iff. apply Qle_bool_iff.
Qed.

Lemma fold_max_spec (xs : list Q) (m : Q) :
  let r := fold_left (λ m y, if Qgtb y m then y else m) xs m in
  (m <= r)%Q ∧ (∀ x, x ∈ xs → (x <= r)%Q) ∧ (r = m ∨ r ∈ xs).
Proof.
  revert m. induction xs as [|y xs IH]; intros m; simpl.
  - split; [apply Qle_refl|]. split; [|by left].
    intros x Hx. by apply elem_of_nil in Hx.
  - destruct (Qgtb y m) eqn:E.
    + apply Qgtb_true in E. destruct (IH y) as (Hm & Hub & Hin).
      split; [lra|]. split.
      * intros x [->|Hx]%elem_of_cons; [done | by apply Hub].
      * right. destruct Hin as [->|Hin]; [left | by right].
    + apply Qgtb_false in E. destruct (IH m) as (Hm & Hub & Hin).
      split; [done|]. split.
      * intros x [->|Hx]%elem_of_cons; [lra | by apply Hub].
      * destruct Hin as [->|Hin]; [by left | right; by right].
Qed.

Lemma py_max_ub (l : list Q) (x : Q) : x ∈ l → (x <= py_max l)%Q.
Proof.
  destruct l as [|y ys]; [by intros ?%elem_of_nil|].
  intros Hx. simpl. destruct (fold_max_spec ys y) as (Hm & Hub & _).
  apply elem_of_cons in Hx as [->|Hx]; [done | by apply Hub].
Qed.

Lemma py_max_in (l : list Q) : l ≠ [] → py_max l ∈ l.
Proof.
  destruct l as [|y ys]; [done|]. intros _. simpl.
  destruct (fold_max_spec ys y) as (_ & _ & [->|Hin]); [left | by right].
Qed.

Lemma py_all_true (l : list bool) : py_all l = true ↔ ∀ b, b ∈ l → b = true.
Proof.
  unfold py_all. induction l as [|b l IH]; simpl.
  - split; [by intros _ b ?%elem_of_nil | done].
  - rewrite andb_true_iff, IH. unfold id. split.
    + intros [Hb Hl] b' [->|Hin]%elem_of_cons; [done | by apply Hl].
    + intros Hl. split; [apply Hl; left | intros b' Hb'; apply Hl; by right].
Qed.

Lemma py_any_true (l : list bool) : py_any l = true ↔ ∃ b, b ∈ l ∧ b = true.
Proof.
  unfold py_any. induction l as [|b l IH]; simpl.
  - split; [done | by intros (b & ?%elem_of_nil & _)].
  - rewrite orb_true_iff, IH. unfold id. split.
    + intros [Hb|(b' & Hin & Hb')].
      * exists b. split; [left | done].
      * exists b'. split; [by right | done].
    + intros (b' & [->|Hin]%elem_of_cons & Hb'); [by left|].
      right. by exists b'.
Qed.

(** ** Dictionaries *)

Section dict_props.
Context {K V : Type} `{EqDecision K}.
Implicit Types (d : dict K V) (k : K) (v : V).

Lemma get_set_eq d k v : PyDict.get (PyDict.set k v d) k = Some v.
Proof.
  induction d as [|[k' v'] d IH]; simpl.
  - by rewrite decide_True.
  - destruct (decide (k = k')) as [->|Hne]; simpl.
    + by rewrite decide_True.
    + by rewrite decide_False.
Qed.

Lemma get_set_ne d k k' v :
  k ≠ k' → PyDict.get (PyDict.set k v d) k' = PyDict.get d k'.
Proof.
  intros Hne. induction d as [|[k0 v0] d IH]; simpl.
  - by rewrite decide_False.
  - destruct (decide (k = k0)) as [->|Hne0]; simpl.
    + by rewrite !decide_False.
    + by rewrite IH.
Qed.

Lemma get_set d k k' v :
  PyDict.get (PyDict.set k v d) k' =
    if decide (k = k') then Some v else PyDict.get d k'.
Proof.
  destruct (decide (k = k')) as [->|Hne];
    [apply get_set_eq | by apply get_set_ne].
Qed.

Lemma keys_set d k v :
  PyDict.keys (PyDict.set k v d) =
    if decide (k ∈ PyDict.keys d) then PyDict.keys d
    else PyDict.keys d ++ [k].
Proof.
  unfold PyDict.keys. induction d as [|[k' v'] d IH].
  - simpl. done.
  - cbn [PyDict.set]. rewrite fmap_cons. cbn [fst].
    destruct (decide (k = k')) as [->|Hne].
    + rewrite decide_True; [done | left].
    + rewrite fmap_cons, IH. cbn [fst].
      destruct (decide (k ∈ d.*1)) as [Hin|Hnin].
      * rewrite decide_True; [done | by right].
      * rewrite decide_False; [done|].
        by intros [?|?]%elem_of_cons.
Qed.

Lemma elem_of_keys_set d k k' v :
  k' ∈ PyDict.keys (PyDict.set k v d) ↔ k' = k ∨ k' ∈ PyDict.keys d.
Proof.
  rewrite keys_set. destruct (decide (k ∈ PyDict.keys d)) as [Hin|Hnin].
  - split; [by right | by intros [->|?]].
  - rewrite elem_of_app, list_elem_of_singleton. tauto.
Qed.

Lemma NoDup_keys_set d k v :
  NoDup (PyDict.keys d) → NoDup (PyDict.keys (PyDict.set k v d)).
Proof.
  intros Hnd. rewrite keys_set.
  destruct (decide (k ∈ PyDict.keys d)) as [Hin|Hnin]; [done|].
  apply NoDup_app. split; [done|]. split; [|apply NoDup_singleton].
  by intros x Hx ->%list_elem_of_singleton.
Qed.

Lemma get_Some_elem_of d k v : PyDict.get d k = Some v → (k, v) ∈ d.
Proof.
  induction d as [|[k' v'] d IH]; simpl; [done|].
  destruct (decide (k = k')) as [->|Hne].
  - intros [= ->]. left.
  - intros Hg. right. by apply IH.
Qed.

Lemma elem_of_get_Some d k v :
  NoDup (PyDict.keys d) → (k, v) ∈ d → PyDict.get d k = Some v.
Proof.
  unfold PyDict.keys.
  induction d as [|[k' v'] d IH]; simpl; [by intros _ ?%elem_of_nil|].
  intros [Hnin Hnd]%NoDup_cons [[= -> ->]|Hin]%elem_of_cons.
  - by rewrite decide_True.
  - rewrite decide_False; [by apply IH|].
    intros ->. apply Hnin. apply list_elem_of_fmap. by exists (k', v).
Qed.

Lemma get_is_Some d k : is_Some (PyDict.get d k) ↔ k ∈ PyDict.keys d.
Proof.
  unfold PyDict.keys. induction d as [|[k' v'] d IH]; simpl.
  - split; [by intros [? ?] | by intros ?%elem_of_nil].
  - destruct (decide (k = k')) as [->|Hne].
    + split; [intros _; left | by eexists].
    + rewrite IH. split; [by right | by intros [?|?]%elem_of_cons].
Qed.

Lemma elem_of_values d v :
  v ∈ PyDict.values d ↔ ∃ k, (k, v) ∈ d.
Proof.
  unfold PyDict.values. rewrite list_elem_of_fmap. split.
  - intros ([k v'] & -> & Hin). by exists k.
  - intros (k & Hin). by exists (k, v).
Qed.

Lemma get_assign_all f ks d k :
  PyDict.get (PyDict.assign_all f ks d) k =
    if decide (k ∈ ks) then Some (f k) else PyDict.get d k.
Proof.
  unfold PyDict.assign_all. revert d. induction ks as [|k0 ks IH]; intros d.
  - simpl. done.
  - cbn [foldl]. rewrite IH. destruct (decide (k ∈ ks)) as [Hin|Hnin].
    + rewrite decide_True; [done | by right].
    + rewrite get_set. destruct (decide (k0 = k)) as [->|Hne].
      * rewrite decide_True; [done | left].
      * rewrite decide_False; [done|]. by intros [?|?]%elem_of_cons.
Qed.

Lemma NoDup_keys_assign_all f ks d :
  NoDup (PyDict.keys d) → NoDup (PyDict.keys (PyDict.assign_all f ks d)).
Proof.
  unfold PyDict.assign_all. revert d. induction ks as [|k0 ks IH]; intros d Hd;
    simpl; [done|]. apply IH. by apply NoDup_keys_set.
Qed.

Lemma elem_of_keys_assign_all f ks d k :
  k ∈ PyDict.keys (PyDict.assign_all f ks d) ↔ k ∈ ks ∨ k ∈ PyDict.keys d.
Proof.
  rewrite <- !get_is_Some, get_assign_all.
  destruct (decide (k ∈ ks)) as [Hin|Hnin].
  - split; [by left | by eexists].
  - split; [by right | by intros [?|?]].
Qed.

Lemma elem_of_assign_all_nil f ks k v :
  (k, v) ∈ PyDict.assign_all f ks [] ↔ k ∈ ks ∧ v = f k.
Proof.
  split.
  - intros Hin. apply elem_of_get_Some in Hin.
    + rewrite get_assign_all in Hin.
      destruct (decide (k ∈ ks)); [|done]. by injection Hin as <-.
    + apply NoDup_keys_assign_all, NoDup_nil_2.
  - intros [Hin ->]. apply get_Some_elem_of.
    rewrite get_assign_all. by rewrite decide_True.
Qed.

Lemma elem_of_values_assign_all f ks v :
  v ∈ PyDict.values (PyDict.assign_all f ks []) ↔ ∃ k, k ∈ ks ∧ v = f k.
Proof.
  rewrite elem_of_values.
  split; intros (k & Hk); exists k; by apply elem_of_assign_all_nil.
Qed.

Lemma from_keys_assign_all (ks : list K) v :
  PyDict.from_keys ks v = PyDict.assign_all (λ _, v) ks [].
Proof. done. Qed.
End dict_props.

(** ** [_get_parent_updates] *)

Section parent_updates_props.
Context {AssetKey : Type} `{Countable AssetKey}.
Variable inst : DagsterInstance AssetKey.
Variable c : AssetKey.
Variable P : list AssetKey.
Variable t_c : Q.
Variable L : list AssetKey.
Variable wait : bool.

(** The entry of a parent when the loop runs to its end. *)
Let status (p : AssetKey) : bool * Q :=
  if bool_decide (p ∈ L) then (true, 0%Q) else completed_status inst c t_c p.

Lemma parent_updates_loop_abort ps records p :
  wait = true → p ∈ ps → p ∉ L → planned_in_progress inst p = true →
  parent_updates_loop inst c P t_c L wait ps records =
    PyDict.from_keys P (false, 0%Q).
Proof.
  intros -> Hin HnL Hpip. revert records.
  induction ps as [|q ps IH]; intros records; [by apply elem_of_nil in Hin|].
  cbn [parent_updates_loop]. destruct (decide (q ∈ L)) as [HqL|HqL].
  - rewrite bool_decide_eq_true_2 by done.
    apply elem_of_cons in Hin as [->|Hin]; [done | by apply IH].
  - rewrite bool_decide_eq_false_2 by done. cbn [andb].
    destruct (planned_in_progress inst q) eqn:Hq; [done|].
    apply elem_of_cons in Hin as [->|Hin]; [congruence | by apply IH].
Qed.

Lemma parent_updates_loop_run ps records :
  (wait = false ∨ ∀ q, q ∈ ps → q ∉ L → planned_in_progress inst q = false) →
  parent_updates_loop inst c P t_c L wait ps records =
    PyDict.assign_all status ps records.
Proof.
  intros Hrun. revert records.
  induction ps as [|q ps IH]; intros records; [done|].
  assert (wait = false ∨
          ∀ q', q' ∈ ps → q' ∉ L → planned_in_progress inst q' = false)
    as Hrun'.
  { destruct Hrun as [?|Hrun]; [by left|].
    right. intros q' Hq'. apply Hrun. by right. }
  change (PyDict.assign_all status (q :: ps) records)
    with (PyDict.assign_all status ps (PyDict.set q (status q) records)).
  rewrite <- (IH Hrun'). cbn [parent_updates_loop]. unfold status.
  destruct (decide (q ∈ L)) as [HqL|HqL].
  - by rewrite !bool_decide_eq_true_2 by done.
  - rewrite !bool_decide_eq_false_2 by done.
    replace (wait && planned_in_progress inst q) with false; [done|].
    destruct Hrun as [->|Hrun]; [done|].
    rewrite (Hrun q); [by destruct wait | left | done].
Qed.

(** Whether the early return of line 124 is taken is decided by the
    parents outside the launch list. *)
Lemma in_flight_dec :
  (wait = true ∧ ∃ p, p ∈ P ∧ (p ∉ L) ∧ planned_in_progress inst p = true)
  ∨ (wait = false ∨ ∀ q, q ∈ P → q ∉ L → planned_in_progress inst q = false).
Proof.
  destruct wait; [|right; by left].
  induction P as [|q ps IH].
  - right; right. by intros q ?%elem_of_nil.
  - destruct IH as [(_ & p & Hp & HpL & Hpip)|[?|Hall]]; [|done|].
    + left. split; [done|]. exists p. split; [by right | done].
    + destruct (decide (q ∈ L)) as [HqL|HqL].
      * right; right. intros q' [->|Hq']%elem_of_cons; [done | by apply Hall].
      * destruct (planned_in_progress inst q) eqn:Hq.
        -- left. split; [done|]. exists q. split; [left | done].
        -- right; right.
           intros q' [->|Hq']%elem_of_cons; [done | by apply Hall].
Qed.

Lemma parent_updates_abort p :
  wait = true → p ∈ P → p ∉ L → planned_in_progress inst p = true →
  _get_parent_updates inst c P t_c L wait =
    PyDict.assign_all (λ _, (false, 0%Q)) P [].
Proof. intros. by eapply parent_updates_loop_abort. Qed.

Lemma parent_updates_run :
  (wait = false ∨ ∀ q, q ∈ P → q ∉ L → planned_in_progress inst q = false) →
  _get_parent_updates inst c P t_c L wait = PyDict.assign_all status P [].
Proof. apply parent_updates_loop_run. Qed.

(** In both cases the result has one entry per parent. *)
Lemma parent_updates_shape :
  ∃ f, _get_parent_updates inst c P t_c L wait = PyDict.assign_all f P [].
Proof.
  destruct in_flight_dec as [(Hw & p & Hp & HpL & Hpip)|Hrun].
  - eexists. by eapply parent_updates_abort.
  - eexists. by apply parent_updates_run.
Qed.
End parent_updates_props.

(** ** The launch condition on a dictionary with one entry per parent *)

Lemma py_all_false (l : list bool) :
  py_all l = false ↔ ∃ b, b ∈ l ∧ b = false.
Proof.
  unfold py_all. induction l as [|b l IH]; simpl.
  - split; [done | by intros (b & ?%elem_of_nil & _)].
  - rewrite andb_false_iff, IH. unfold id. split.
    + intros [Hb|(b' & Hin & Hb')].
      * exists b. split; [left | done].
      * exists b'. split; [by right | done].
    + intros (b' & [->|Hin]%elem_of_cons & Hb'); [by left|].
      right. by exists b'.
Qed.

Lemma py_any_false (l : list bool) :
  py_any l = false ↔ ∀ b, b ∈ l → b = false.
Proof.
  unfold py_any. induction l as [|b l IH]; simpl.
  - split; [by intros _ b ?%elem_of_nil | done].
  - rewrite orb_false_iff, IH. unfold id. split.
    + intros [Hb Hl] b' [->|Hin]%elem_of_cons; [done | by apply Hl].
    + intros Hl. split; [apply Hl; left | intros b' Hb'; apply Hl; by right].
Qed.

Section flags.
Context {K : Type} `{EqDecision K}.
Implicit Types (f : K → bool * Q) (ks : list K).

Lemma elem_of_flags f ks b :
  b ∈ fst <$> PyDict.values (PyDict.assign_all f ks []) ↔
  ∃ k, k ∈ ks ∧ b = (f k).1.
Proof.
  rewrite list_elem_of_fmap. split.
  - intros (v & -> & (k & Hk & ->)%elem_of_values_assign_all). by exists k.
  - intros (k & Hk & ->). exists (f k). split; [done|].
    apply elem_of_values_assign_all. by exists k.
Qed.

Lemma elem_of_stamps f ks t :
  t ∈ snd <$> PyDict.values (PyDict.assign_all f ks []) ↔
  ∃ k, k ∈ ks ∧ t = (f k).2.
Proof.
  rewrite list_elem_of_fmap. split.
  - intros (v & -> & (k & Hk & ->)%elem_of_values_assign_all). by exists k.
  - intros (k & Hk & ->). exists (f k). split; [done|].
    apply elem_of_values_assign_all. by exists k.
Qed.

Lemma all_flags_true f ks :
  py_all (fst <$> PyDict.values (PyDict.assign_all f ks [])) = true ↔
  ∀ k, k ∈ ks → (f k).1 = true.
Proof.
  rewrite py_all_true. split.
  - intros Hall k Hk. apply Hall, elem_of_flags. by exists k.
  - intros Hall b (k & Hk & ->)%elem_of_flags. by apply Hall.
Qed.

Lemma all_flags_false f ks :
  py_all (fst <$> PyDict.values (PyDict.assign_all f ks [])) = false ↔
  ∃ k, k ∈ ks ∧ (f k).1 = false.
Proof.
  rewrite py_all_false. split.
  - intros (b & (k & Hk & ->)%elem_of_flags & Hb). by exists k.
  - intros (k & Hk & Hb). exists (f k).1. split; [|done].
    apply elem_of_flags. by exists k.
Qed.

Lemma any_flag_true f ks :
  py_any (fst <$> PyDict.values (PyDict.assign_all f ks [])) = true ↔
  ∃ k, k ∈ ks ∧ (f k).1 = true.
Proof.
  rewrite py_any_true. split.
  - intros (b & (k & Hk & ->)%elem_of_flags & Hb). by exists k.
  - intros (k & Hk & Hb). exists (f k).1. split; [|done].
    apply elem_of_flags. by exists k.
Qed.

Lemma any_flag_false f ks :
  py_any (fst <$> PyDict.values (PyDict.assign_all f ks [])) = false ↔
  ∀ k, k ∈ ks → (f k).1 = false.
Proof.
  rewrite py_any_false. split.
  - intros Hall k Hk. apply Hall, elem_of_flags. by exists k.
  - intros Hall b (k & Hk & ->)%elem_of_flags. by apply Hall.
Qed.
End flags.

(** ** The loop of the tick *)

Section loop_props.
Context {AssetKey : Type} `{Countable AssetKey} `{!Externals AssetKey}.
Variable upstream : gmap AssetKey (list AssetKey).
Variable and_condition : bool.
Variable wait : bool.
Variable inst : DagsterInstance AssetKey.
Variable cursor_dict : dict string Q.

Local Abbreviation step := (sensor_step upstream and_condition wait inst cursor_dict).
Local Abbreviation loop := (foldl step).
Local Abbreviation launches :=
  (launches upstream and_condition wait inst cursor_dict).
Local Abbreviation launched_cursor :=
  (launched_cursor upstream wait inst cursor_dict).
Local Abbreviation a_cursor := (a_cursor cursor_dict).

Implicit Types (L : list AssetKey) (nc : dict string Q) (a : AssetKey).
Implicit Types (st : list AssetKey * dict string Q).

Lemma step_eq L nc a :
  step (L, nc) a =
    if launches L a
    then (L ++ [a],
          PyDict.set (str a) (launched_cursor L a)
            (PyDict.set (str a) (a_cursor a) nc))
    else (L, PyDict.set (str a) (a_cursor a) nc).
Proof. reflexivity. Qed.

Lemma step_fst st a :
  (step st a).1 = if launches st.1 a then st.1 ++ [a] else st.1.
Proof.
  destruct st as [L nc]. rewrite step_eq. cbn [fst].
  by destruct (launches L a).
Qed.

Lemma step_snd st a :
  (step st a).2 =
    if launches st.1 a
    then PyDict.set (str a) (launched_cursor st.1 a)
           (PyDict.set (str a) (a_cursor a) st.2)
    else PyDict.set (str a) (a_cursor a) st.2.
Proof.
  destruct st as [L nc]. rewrite step_eq. cbn [fst snd].
  by destruct (launches L a).
Qed.

Lemma step_get_self st a :
  PyDict.get (step st a).2 (str a) =
    Some (if launches st.1 a then launched_cursor st.1 a else a_cursor a).
Proof.
  rewrite step_snd. destruct (launches st.1 a); by rewrite get_set_eq.
Qed.

Lemma step_get_other st a k :
  str a ≠ k → PyDict.get (step st a).2 k = PyDict.get st.2 k.
Proof.
  intros Hne. rewrite step_snd.
  destruct (launches st.1 a); by rewrite !get_set_ne.
Qed.

Lemma step_keys st a k :
  k ∈ PyDict.keys (step st a).2 ↔ k = str a ∨ k ∈ PyDict.keys st.2.
Proof.
  rewrite step_snd. destruct (launches st.1 a);
    rewrite !elem_of_keys_set; tauto.
Qed.

Lemma loop_fst_elem xs st x :
  x ∈ (loop st xs).1 → x ∈ st.1 ∨ x ∈ xs.
Proof.
  revert st. induction xs as [|a xs IH]; intros st; [by left|].
  cbn [foldl]. intros [Hx|Hx]%IH; [|right; by right].
  rewrite step_fst in Hx. destruct (launches st.1 a); [|by left].
  apply elem_of_app in Hx as [?|Hx]; [by left|].
  apply list_elem_of_singleton in Hx as ->. right; left.
Qed.

Lemma loop_fst_mono xs st x : x ∈ st.1 → x ∈ (loop st xs).1.
Proof.
  revert st. induction xs as [|a xs IH]; intros st Hx; [done|].
  cbn [foldl]. apply IH. rewrite step_fst.
  destruct (launches st.1 a); [|done]. apply elem_of_app. by left.
Qed.

Lemma loop_get_other xs st k :
  (∀ x, x ∈ xs → str x ≠ k) →
  PyDict.get (loop st xs).2 k = PyDict.get st.2 k.
Proof.
  revert st. induction xs as [|a xs IH]; intros st Hk; [done|].
  cbn [foldl]. rewrite IH.
  - apply step_get_other, Hk. left.
  - intros x Hx. apply Hk. by right.
Qed.

Lemma loop_keys xs st k :
  k ∈ PyDict.keys (loop st xs).2 ↔
  k ∈ PyDict.keys st.2 ∨ ∃ a, a ∈ xs ∧ k = str a.
Proof.
  revert st. induction xs as [|a xs IH]; intros st.
  - simpl. split; [by left|]. by intros [?|(a & ?%elem_of_nil & _)].
  - cbn [foldl]. rewrite IH, step_keys. split.
    + intros [[->|?]|(b & Hb & ->)].
      * right. exists a. split; [left | done].
      * by left.
      * right. exists b. split; [by right | done].
    + intros [?|(b & [->|Hb]%elem_of_cons & ->)].
      * left; by right.
      * left; by left.
      * right. by exists b.
Qed.

Lemma loop_NoDup_keys xs st :
  NoDup (PyDict.keys st.2) → NoDup (PyDict.keys (loop st xs).2).
Proof.
  revert st. induction xs as [|a xs IH]; intros st Hnd; [done|].
  cbn [foldl]. apply IH. rewrite step_snd.
  destruct (launches st.1 a); by repeat apply NoDup_keys_set.
Qed.


(** The decision taken for an asset that the loop visits once. *)
Lemma loop_split pre a post :
  Inj (=) (=) str → NoDup (pre ++ a :: post) →
  let L := (loop ([], []) pre).1 in
  let final := loop ([], []) (pre ++ a :: post) in
  (a ∈ final.1 ↔ launches L a = true)
  ∧ PyDict.get final.2 (str a) =
      Some (if launches L a then launched_cursor L a else a_cursor a)
  ∧ (∀ x, x ∈ L → x ∈ final.1)
  ∧ (∀ x, x ∈ L → x ∈ pre).
Proof.
  intros Hinj [Hpre [Hdisj [Ha Hpost]%NoDup_cons]]%NoDup_app L final.
  subst L final. set (st0 := loop ([], []) pre).
  assert (a ∉ pre) as Hapre.
  { intros Hin. apply (Hdisj a Hin). left. }
  assert (∀ x, x ∈ st0.1 → x ∈ pre) as HL.
  { intros x [Hx|Hx]%loop_fst_elem; [by apply elem_of_nil in Hx | done]. }
  rewrite foldl_app. cbn [foldl]. fold st0.
  split; [|split; [|split; [|done]]].
  - split.
    + intros [Hin|Hin]%loop_fst_elem; [|done].
      rewrite step_fst in Hin. destruct (launches st0.1 a); [done|].
      by apply HL in Hin.
    + intros Hl. apply loop_fst_mono. rewrite step_fst, Hl.
      apply elem_of_app. right. left.
  - rewrite loop_get_other; [apply step_get_self|].
    intros x Hx Heq. apply Hinj in Heq as ->. done.
  - intros x Hx. apply loop_fst_mono. rewrite step_fst.
    destruct (launches st0.1 a); [|done]. apply elem_of_app. by left.
Qed.
End loop_props.

(** ** The order in which the tick visits the assets *)

Lemma elem_of_concat_split {A : Type} (layers : list (list A)) (b : A) :
  b ∈ concat layers →
  ∃ pre layer post, layers = pre ++ layer :: post ∧ b ∈ layer.
Proof.
  induction layers as [|l0 layers IH]; simpl; [by intros ?%elem_of_nil|].
  intros [Hb|Hb]%elem_of_app.
  - by exists [], l0, layers.
  - destruct (IH Hb) as (pre & layer & post & -> & Hin).
    by exists (l0 :: pre), layer, post.
Qed.

Section order_props.
Context {AssetKey : Type} `{Countable AssetKey}.
Variable upstream : gmap AssetKey (list AssetKey).

Lemma layers_respect_before seen pre layer post a b :
  layers_respect upstream seen (pre ++ layer :: post) →
  b ∈ layer → a ∈ default [] (upstream !! b) → a ≠ b →
  a ∈ seen ++ concat pre.
Proof.
  revert seen. induction pre as [|l0 pre IH]; intros seen; simpl.
  - intros [Hlayer _] Hb Ha Hne.
    rewrite Forall_forall in Hlayer. specialize (Hlayer b Hb).
    rewrite Forall_forall in Hlayer.
    destruct (Hlayer a Ha) as [?|?]; [done|]. by rewrite app_nil_r.
  - intros [_ Hrest] Hb Ha Hne. rewrite app_assoc. by apply IH.
Qed.

Lemma toposort_assets_NoDup (layers : list (list AssetKey)) :
  toposort_contract upstream layers →
  NoDup (toposort_assets upstream layers).
Proof. intros (Hnd & _). by apply NoDup_filter. Qed.

Lemma elem_of_toposort_assets (layers : list (list AssetKey)) a :
  toposort_contract upstream layers →
  a ∈ toposort_assets upstream layers ↔ a ∈ dom upstream.
Proof.
  intros (_ & Hall & _). rewrite Forall_forall in Hall.
  unfold toposort_assets. rewrite list_elem_of_filter. split.
  - by intros [? _].
  - intros Ha. split; [done|]. apply Hall. by apply elem_of_elements.
Qed.

Lemma toposort_assets_precedes (layers : list (list AssetKey)) a b ps :
  toposort_contract upstream layers →
  upstream !! b = Some ps → a ∈ ps → a ≠ b → a ∈ dom upstream →
  ∃ l1 l2 l3, toposort_assets upstream layers = l1 ++ a :: l2 ++ b :: l3.
Proof.
  intros (_ & Hall & Hresp) Hb Ha Hne Hmon.
  rewrite Forall_forall in Hall.
  assert (b ∈ dom upstream) as Hbmon by (apply elem_of_dom; by eexists).
  assert (b ∈ concat layers) as Hbin.
  { apply Hall. by apply elem_of_elements. }
  apply elem_of_concat_split in Hbin as (pre & layer & post & -> & Hbl).
  assert (a ∈ concat pre) as Hapre.
  { apply (layers_respect_before [] pre layer post a b);
      [done | done | by rewrite Hb | done]. }
  unfold toposort_assets.
  rewrite concat_app, filter_app. cbn [concat]. rewrite filter_app.
  assert (a ∈ filter (λ asset, asset ∈ dom upstream) (concat pre)) as Ha'.
  { by apply list_elem_of_filter. }
  assert (b ∈ filter (λ asset, asset ∈ dom upstream) layer) as Hb'.
  { by apply list_elem_of_filter. }
  apply list_elem_of_split in Ha' as (l1 & l2 & ->).
  apply list_elem_of_split in Hb' as (m1 & m2 & ->).
  exists l1, (l2 ++ m1),
    (m2 ++ filter (λ asset, asset ∈ dom upstream) (concat post)).
  by rewrite <- !app_assoc.
Qed.

Lemma toposort_assets_concat (layers : list (list AssetKey)) :
  toposort_assets upstream layers =
    concat (filter (λ asset, asset ∈ dom upstream) <$> layers).
Proof.
  unfold toposort_assets. induction layers as [|l0 layers IH]; [done|].
  cbn [concat]. rewrite filter_app, IH. done.
Qed.
End order_props.

(** ** Deciding an asset again with the cursor just written *)

Section retick.
Context {AssetKey : Type} `{EqDecision AssetKey}.
Variable inst : DagsterInstance AssetKey.
Variable c : AssetKey.


Lemma completed_stamp (t : Q) p e rest :
  get_event_records inst ASSET_MATERIALIZATION p = e :: rest →
  (timestamp e <= t)%Q ∨ (completed_status inst c t p).2 = timestamp e.
Proof.
  intros He. unfold completed_status. rewrite He.
  destruct (Qgtb (timestamp e) t) eqn:Hgt.
  - right. by destruct (bool_decide _).
  - left. by apply Qgtb_false.
Qed.

End retick.

(** ** The reference model of [toposort] keeps the contract *)

Section toposort_model_props.
Context {K : Type} `{Countable K}.
Implicit Types (data : dict K (list K)) (ordered : list K).

Lemma elem_of_ready data b : b ∈ ready data ↔ (b, []) ∈ data.
Proof.
  unfold ready. rewrite list_elem_of_fmap. split.
  - intros ([b' deps] & -> & [Hnil Hin]%list_elem_of_filter).
    simpl in *. by subst deps.
  - intros Hin. exists (b, []). split; [done|].
    by apply list_elem_of_filter.
Qed.

Lemma NoDup_ready data : NoDup data.*1 → NoDup (ready data).
Proof.
  intros Hnd. apply (sublist_NoDup _ data.*1); [done|].
  unfold ready. apply fmap_sublist, sublist_filter.
Qed.

Lemma prune_keys ordered data :
  (prune ordered data).*1 = (filter (λ kv, kv.1 ∉ ordered) data).*1.
Proof. unfold prune. by rewrite <- list_fmap_compose. Qed.

Lemma NoDup_prune ordered data :
  NoDup data.*1 → NoDup (prune ordered data).*1.
Proof.
  intros Hnd. rewrite prune_keys.
  apply (sublist_NoDup _ data.*1); [done|].
  apply fmap_sublist, sublist_filter.
Qed.

Lemma elem_of_prune_keys ordered data x :
  x ∈ (prune ordered data).*1 ↔ x ∈ data.*1 ∧ x ∉ ordered.
Proof.
  rewrite prune_keys, !list_elem_of_fmap. split.
  - intros ([b deps] & -> & [Hb Hin]%list_elem_of_filter).
    split; [by exists (b, deps) | done].
  - intros [([b deps] & -> & Hin) Hb]. exists (b, deps).
    split; [done|]. by apply list_elem_of_filter.
Qed.

Lemma elem_of_prune ordered data b deps :
  (b, deps) ∈ data → b ∉ ordered →
  (b, filter (λ dep, dep ∉ ordered) deps) ∈ prune ordered data.
Proof.
  intros Hin Hb. unfold prune. apply list_elem_of_fmap.
  exists (b, deps). split; [done|]. by apply list_elem_of_filter.
Qed.

(** The layers hold exactly the items of [data], each once, and the
    dependencies of an item lie in the layers before its own. *)
Lemma kahn_layers_spec fuel data layers :
  NoDup data.*1 →
  kahn_layers fuel data = Ok layers →
  NoDup (concat layers)
  ∧ (∀ x, x ∈ concat layers ↔ x ∈ data.*1)
  ∧ (∀ pre layer post b deps a,
       layers = pre ++ layer :: post →
       b ∈ layer → (b, deps) ∈ data → a ∈ deps → a ∈ concat pre).
Proof.
  revert data layers. induction fuel as [|fuel IH]; intros data layers Hnd.
  - cbn [kahn_layers]. destruct (ready data) as [|b0 ordered] eqn:Hready;
      [|done].
    destruct data as [|kv data]; [|done]. intros [= <-].
    split; [apply NoDup_nil_2|]. split; [done|].
    intros pre layer post b deps a Heq. by destruct pre.
  - cbn [kahn_layers]. destruct (ready data) as [|b0 ordered'] eqn:Hready.
    { destruct data as [|kv data]; [|done]. intros [= <-].
      split; [apply NoDup_nil_2|]. split; [done|].
      intros pre layer post b deps a Heq. by destruct pre. }
    rewrite <- Hready. set (ordered := ready data).
    destruct (kahn_layers fuel (prune ordered data)) as [rest|e] eqn:Hrest;
      [|done].
    cbn [rbind]. intros [= <-].
    destruct (IH _ _ (NoDup_prune ordered data Hnd) Hrest)
      as (Hnd' & Hmem & Hbefore).
    assert (∀ x, x ∈ ordered → x ∈ data.*1) as Hsub.
    { intros x Hx%elem_of_ready. apply list_elem_of_fmap. by exists (x, []). }
    split; [|split].
    + cbn [concat]. apply NoDup_app. split; [by apply NoDup_ready|].
      split; [|done]. intros x Hx Hx'. apply Hmem in Hx'.
      by apply elem_of_prune_keys in Hx' as [_ ?].
    + intros x. cbn [concat]. rewrite elem_of_app, Hmem, elem_of_prune_keys.
      split; [intros [?|[? _]]; auto|].
      intros Hx. destruct (decide (x ∈ ordered)); [by left | by right].
    + intros pre layer post b deps a Heq Hb Hdeps Ha.
      destruct pre as [|l0 pre]; simpl in Heq.
      * injection Heq as <- <-. apply elem_of_ready in Hb.
        assert (PyDict.get data b = Some deps) as Hg1
          by by apply elem_of_get_Some.
        assert (PyDict.get data b = Some []) as Hg2
          by by apply elem_of_get_Some.
        rewrite Hg1 in Hg2. injection Hg2 as ->. by apply elem_of_nil in Ha.
      * injection Heq as <- ->. cbn [concat]. apply elem_of_app.
        destruct (decide (a ∈ ordered)) as [Hao|Hao]; [by left|]. right.
        assert (b ∉ ordered) as Hbo.
        { assert (b ∈ concat (pre ++ layer :: post)) as Hbin.
          { rewrite concat_app. cbn [concat]. rewrite !elem_of_app. auto. }
          apply Hmem in Hbin. by apply elem_of_prune_keys in Hbin as [_ ?]. }
        apply (Hbefore pre layer post b
                 (filter (λ dep, dep ∉ ordered) deps) a);
          [done | done | by apply elem_of_prune |].
        by apply list_elem_of_filter.
Qed.

Lemma layers_respect_intro (upstream : gmap K (list K)) seen layers :
  (∀ pre layer post b a,
     layers = pre ++ layer :: post → b ∈ layer →
     a ∈ default [] (upstream !! b) → a ≠ b → a ∈ seen ++ concat pre) →
  layers_respect upstream seen layers.
Proof.
  revert seen. induction layers as [|l0 layers IH]; intros seen Hall;
    [done|].
  cbn [layers_respect]. split.
  - apply Forall_forall. intros b Hb. apply Forall_forall. intros a Ha.
    destruct (decide (a = b)) as [?|Hne]; [by left|]. right.
    specialize (Hall [] l0 layers b a eq_refl Hb Ha Hne).
    by rewrite app_nil_r in Hall.
  - apply IH. intros pre layer post b a -> Hb Ha Hne.
    rewrite <- app_assoc.
    by apply (Hall (l0 :: pre) layer post b a).
Qed.

Lemma toposort_data_keys (upstream : gmap K (list K)) :
  NoDup (toposort_data upstream).*1
  ∧ (∀ b ps, upstream !! b = Some ps →
             (b, filter (λ dep, dep ≠ b) ps) ∈ toposort_data upstream).
Proof.
  unfold toposort_data.
  set (data := (λ kv, (kv.1, filter (λ dep, dep ≠ kv.1) kv.2))
                 <$> map_to_list upstream).
  set (extra := filter (λ dep, dep ∉ data.*1) (remove_dups (concat data.*2))).
  assert (data.*1 = (map_to_list upstream).*1) as Hkeys.
  { unfold data. by rewrite <- list_fmap_compose. }
  split.
  - rewrite fmap_app, <- list_fmap_compose.
    change (fst ∘ (λ item : K, (item, @nil K))) with (@id K).
    rewrite list_fmap_id. apply NoDup_app. split; [|split].
    + rewrite Hkeys. apply NoDup_fst_map_to_list.
    + intros x Hx Hx'. by apply list_elem_of_filter in Hx' as [? _].
    + apply NoDup_filter, NoDup_remove_dups.
  - intros b ps Hb. apply elem_of_app. left. unfold data.
    apply list_elem_of_fmap. exists (b, ps). split; [done|].
    by apply elem_of_map_to_list.
Qed.

Lemma toposort_model_contract (upstream : gmap K (list K)) layers :
  toposort_model upstream = Ok layers → toposort_contract upstream layers.
Proof.
  unfold toposort_model. intros Hlayers.
  destruct (toposort_data_keys upstream) as (Hnd & Hdata).
  destruct (kahn_layers_spec _ _ _ Hnd Hlayers) as (Hnd' & Hmem & Hbefore).
  split; [done|]. split.
  - apply Forall_forall. intros a [ps Ha]%elem_of_elements%elem_of_dom.
    apply Hmem, list_elem_of_fmap. eexists. split; [|by apply Hdata]. done.
  - apply layers_respect_intro. intros pre layer post b a -> Hb Ha Hne.
    destruct (upstream !! b) as [ps|] eqn:Hps; [|by apply elem_of_nil in Ha].
    simpl in Ha.
    apply (Hbefore pre layer post b (filter (λ dep, dep ≠ b) ps) a);
      [done | done | by apply Hdata |].
    by apply list_elem_of_filter.
Qed.
End toposort_model_props.

(** * The claims *)

Section claims.
Context {AssetKey : Type} `{Countable AssetKey} `{!Externals AssetKey}.
Implicit Types (inst : DagsterInstance AssetKey).
Implicit Types (upstream : gmap AssetKey (list AssetKey)).
Implicit Types (context : SensorContext AssetKey).
Implicit Types (L P : list AssetKey) (c p q : AssetKey).
Implicit Types (cursor_dict nc : dict string Q).

(** C1: when the loop of [_get_parent_updates] runs to its end (the flag
  [wait_for_in_progress_runs] is off, or no parent outside the launch
  list has its latest planned materialization in a run in progress),
  the entry of a parent [p] is: [(True, 0.0)] if [p] is in the launch
  list; otherwise [(False, 0.0)] if [p] has no completed
  materialization or its latest one is not after the cursor [t_c];
  otherwise [(False, timestamp)] if the child is among the assets
  planned in the run of that materialization, and [(True, timestamp)]
  if it is not. *)
Theorem parent_update_status_cases inst c P (t_c : Q) L (wait : bool) p :
p ∈ P →
(wait = false ∨ ∀ q, q ∈ P → q ∉ L → planned_in_progress inst q = false) →
let status := PyDict.get (_get_parent_updates inst c P t_c L wait) p in
(p ∈ L → status = Some (true, 0%Q))
∧ (p ∉ L →
   match get_event_records inst ASSET_MATERIALIZATION p with
   | [] => status = Some (false, 0%Q)
   | e :: _ =>
       ((timestamp e <= t_c)%Q → status = Some (false, 0%Q))
       ∧ ((t_c < timestamp e)%Q →
          let planned :=
            asset_key <$> get_records_for_run inst (run_id e)
                            ASSET_MATERIALIZATION_PLANNED in
          (c ∈ planned → status = Some (false, timestamp e))
          ∧ (c ∉ planned → status = Some (true, timestamp e)))
   end).
Proof.
intros Hp Hrun status. subst status.
rewrite parent_updates_run by done.
rewrite get_assign_all, decide_True by done. split.
- intros HpL. by rewrite bool_decide_eq_true_2.
- intros HpL. rewrite bool_decide_eq_false_2 by done.
  unfold completed_status.
  destruct (get_event_records inst ASSET_MATERIALIZATION p) as [|e rest];
    [done|].
  split.
  + intros Hle. apply Qgtb_false in Hle. by rewrite Hle.
  + intros Hlt. apply Qgtb_true in Hlt. rewrite Hlt. cbn zeta. split.
    * intros Hc. by rewrite bool_decide_eq_true_2.
    * intros Hc. by rewrite bool_decide_eq_false_2.
Qed.

(** C2: an asset [c] that the loop of the tick visits once, with launch
  list [L] when it is reached and cursor [t_c], ends up in the launch
  list iff, in all-mode, every entry of its parent records has a true
  flag and, in any-mode, at least one has.  If it launches, its entry
  in [cursor_update_dict] is the maximum of [t_c] and the timestamps
  of the records: one of these values, and at least each of them.  If
  it does not launch, its entry is [t_c]. *)
Theorem launch_rule_and_next_cursor upstream (and_condition wait : bool)
  inst cursor_dict (pre : list AssetKey) c (post : list AssetKey) :
Inj (=) (=) str →
NoDup (pre ++ c :: post) →
let L := (sensor_loop upstream and_condition wait inst cursor_dict pre).1 in
let t_c := PyDict.get_default cursor_dict (str c) 0%Q in
let results :=
  PyDict.values
    (_get_parent_updates inst c (default [] (upstream !! c)) t_c L wait) in
let final :=
  sensor_loop upstream and_condition wait inst cursor_dict
    (pre ++ c :: post) in
(c ∈ final.1 ↔
   if and_condition then ∀ r, r ∈ results → r.1 = true
   else ∃ r, r ∈ results ∧ r.1 = true)
∧ (c ∈ final.1 →
   ∃ m, PyDict.get final.2 (str c) = Some m
        ∧ (t_c <= m)%Q
        ∧ (∀ r, r ∈ results → (r.2 <= m)%Q)
        ∧ (m = t_c ∨ ∃ r, r ∈ results ∧ m = r.2))
∧ (c ∉ final.1 → PyDict.get final.2 (str c) = Some t_c).
Proof.
intros Hinj Hnd L t_c results final.
destruct (loop_split upstream and_condition wait inst cursor_dict
            pre c post Hinj Hnd) as (Hlaunch & Hget & _ & _).
fold (sensor_loop upstream and_condition wait inst cursor_dict pre) in *.
fold (sensor_loop upstream and_condition wait inst cursor_dict
        (pre ++ c :: post)) in *.
fold L final in Hlaunch, Hget.
assert (launches upstream and_condition wait inst cursor_dict L c
        = condition and_condition (fst <$> results)) as Hcond by done.
assert (launched_cursor upstream wait inst cursor_dict L c
        = py_max ((snd <$> results) ++ [t_c])) as Hmax by done.
split; [|split].
- rewrite Hlaunch, Hcond. unfold condition. destruct and_condition.
  + rewrite py_all_true. split.
    * intros Hall r Hr. apply Hall. by apply list_elem_of_fmap_2.
    * intros Hall b (r & -> & Hr)%list_elem_of_fmap. by apply Hall.
  + rewrite py_any_true. split.
    * intros (b & (r & -> & Hr)%list_elem_of_fmap & Hb). by exists r.
    * intros (r & Hr & Hb). exists r.1. split; [|done].
      by apply list_elem_of_fmap_2.
- intros Hin. apply Hlaunch in Hin. rewrite Hin in Hget.
  eexists. split; [exact Hget|]. rewrite Hmax.
  split; [|split].
  + apply py_max_ub, elem_of_app. right. left.
  + intros r Hr. apply py_max_ub, elem_of_app. left.
    by apply list_elem_of_fmap_2.
  + assert (py_max ((snd <$> results) ++ [t_c])
              ∈ (snd <$> results) ++ [t_c]) as Hm.
    { apply py_max_in. by destruct (snd <$> results). }
    apply elem_of_app in Hm as [(r & Hr1 & Hr2)%list_elem_of_fmap|Hm].
    * right. by exists r.
    * left. by apply list_elem_of_singleton in Hm.
- intros Hnin. destruct (launches upstream and_condition wait inst
                           cursor_dict L c) eqn:Hl; [|done].
  exfalso. apply Hnin. by apply Hlaunch.
Qed.

(** C3, as the code has it: with [wait_for_in_progress_runs] on, if a
  parent [p] of [c] that is not already in the launch list has its
  latest planned materialization in a run in progress, then the parent
  records of [c] are [(False, 0.0)] for every parent of [c] and have
  no other entry, and [c] is not launched by this tick, in all-mode
  and in any-mode. *)
Theorem in_flight_parent_defers_child upstream (and_condition : bool) inst
  cursor_dict (pre : list AssetKey) c (post : list AssetKey) p :
Inj (=) (=) str →
NoDup (pre ++ c :: post) →
let L := (sensor_loop upstream and_condition true inst cursor_dict pre).1 in
let P := default [] (upstream !! c) in
p ∈ P →
p ∉ L →
(∃ r rest,
   get_event_records inst ASSET_MATERIALIZATION_PLANNED p = r :: rest
   ∧ get_runs inst [run_id r] ≠ []) →
let records :=
  _get_parent_updates inst c P
    (PyDict.get_default cursor_dict (str c) 0%Q) L true in
(∀ q, q ∈ P → PyDict.get records q = Some (false, 0%Q))
∧ (∀ q, q ∈ PyDict.keys records → q ∈ P)
∧ c ∉ (sensor_loop upstream and_condition true inst cursor_dict
         (pre ++ c :: post)).1.
Proof.
intros Hinj Hnd L P Hp HpL (r & rest & Hr & Hruns) records.
assert (planned_in_progress inst p = true) as Hpip.
{ unfold planned_in_progress. rewrite Hr.
  by destruct (get_runs inst [run_id r]). }
assert (records = PyDict.assign_all (λ _, (false, 0%Q)) P []) as Hrec.
{ by apply (parent_updates_abort _ _ _ _ _ _ p). }
split; [|split].
- intros q Hq. by rewrite Hrec, get_assign_all, decide_True.
- intros q Hq. rewrite Hrec in Hq.
  apply elem_of_keys_assign_all in Hq as [?|Hq]; [done|].
  by apply elem_of_nil in Hq.
- destruct (loop_split upstream and_condition true inst cursor_dict
              pre c post Hinj Hnd) as (Hlaunch & _).
  unfold sensor_loop. rewrite Hlaunch.
  unfold launches, parent_update_records, a_cursor.
  fold (sensor_loop upstream and_condition true inst cursor_dict pre).
  fold L P records. rewrite Hrec, not_true_iff_false.
  unfold condition. destruct and_condition.
  + apply all_flags_false. by exists p.
  + by apply any_flag_false.
Qed.

(** C6: in the dictionary that a tick writes as its cursor, the value of
  every key is at least the value the cursor had for that key before
  the tick, with a missing key read as [0.0].  The cursor before the
  tick is the persisted one: the empty dictionary when the context holds
  no cursor string or the empty string, and otherwise the dictionary
  that [json_loads] gives for the string the context holds. *)
Theorem cursor_monotone upstream (and_condition wait : bool) context context'
  (request : RunRequest AssetKey) :
sensor_fn upstream and_condition wait context = Ok (context', Some request) →
∃ prev L nc,
  (cursor context = None ∧ prev = []
   ∨ cursor context = Some EmptyString ∧ prev = []
   ∨ ∃ s, cursor context = Some s ∧ s ≠ EmptyString
          ∧ json_loads s = Ok prev)
  ∧ tick_decision upstream and_condition wait context = Ok (L, nc)
  ∧ cursor context' = Some (json_dumps nc)
  ∧ ∀ c v, PyDict.get nc (str c) = Some v →
           (PyDict.get_default prev (str c) 0%Q <= v)%Q.
Proof.
unfold sensor_fn, tick_decision.
destruct (load_cursor (cursor context)) as [prev|e] eqn:Hload; [|done].
destruct (toposort upstream) as [layers|e]; [|done]. cbn [rbind].
destruct (sensor_loop upstream and_condition wait (instance context) prev
            (toposort_assets upstream layers)) as [L nc] eqn:Hloop.
destruct (bool_decide (0 < length L)%nat); [|done].
intros [= <- <-]. exists prev, L, nc.
split.
{ unfold load_cursor in Hload.
  destruct (cursor context) as [s|]; [|left; by injection Hload].
  destruct (decide (s = EmptyString)) as [->|Hs].
  - right; left. by injection Hload.
  - right; right. by exists s. }
do 2 (split; [done|]).
intros c v.
assert (∀ xs st k w,
          (∀ w', PyDict.get st.2 k = Some w' →
                 (PyDict.get_default prev k 0%Q <= w')%Q) →
          PyDict.get
            (foldl (sensor_step upstream and_condition wait
                      (instance context) prev) st xs).2 k = Some w →
          (PyDict.get_default prev k 0%Q <= w)%Q) as Hmono.
{ induction xs as [|a xs IH]; intros st k w Hst; [apply Hst|].
  cbn [foldl]. apply IH. intros w'.
  destruct (decide (str a = k)) as [<-|Hne].
  - rewrite step_get_self. intros [= <-].
    destruct (launches _ _ _ _ _ _ _); [|apply Qle_refl].
    apply py_max_ub, elem_of_app. right. left.
  - rewrite step_get_other by done. apply Hst. }
replace nc with
  (sensor_loop upstream and_condition wait (instance context) prev
     (toposort_assets upstream layers)).2 by by rewrite Hloop.
apply Hmono. by intros w'.
Qed.

(** C7: a tick whose launch list ends up empty returns the context it
  was given, so the cursor string is the one it was, and returns no
  run request. *)
Theorem empty_launch_keeps_cursor upstream (and_condition wait : bool)
  context nc :
tick_decision upstream and_condition wait context = Ok ([], nc) →
sensor_fn upstream and_condition wait context = Ok (context, None).
Proof. unfold sensor_fn. by intros ->. Qed.

(** C9, as the code has it: an absent or empty cursor string is read as
  the empty dictionary; any other string is handed to [json.loads],
  and when that raises the tick raises the same exception: it returns
  no context and no run request. *)
Theorem corrupt_cursor_raises upstream (and_condition wait : bool) context :
(cursor context = None ∨ cursor context = Some EmptyString →
 load_cursor (cursor context) = Ok [])
∧ (∀ s e, cursor context = Some s → s ≠ EmptyString →
          json_loads s = Raise e →
          sensor_fn upstream and_condition wait context = Raise e).
Proof.
split.
- by intros [->| ->].
- intros s e Hs Hne Hraise. unfold sensor_fn, tick_decision, load_cursor.
  by rewrite Hs, decide_False, Hraise.
Qed.

(** C10: when a tick writes the cursor and [toposort] keeps its contract,
  the keys of the written dictionary are exactly the strings of the
  keys of [upstream], each once: every monitored asset has an entry,
  launched or not, and no other key of the previous cursor is kept. *)
Theorem written_cursor_keys upstream (and_condition wait : bool) context
  context' (request : RunRequest AssetKey) :
(∀ layers, toposort upstream = Ok layers →
           toposort_contract upstream layers) →
sensor_fn upstream and_condition wait context = Ok (context', Some request) →
∃ L nc,
  tick_decision upstream and_condition wait context = Ok (L, nc)
  ∧ cursor context' = Some (json_dumps nc)
  ∧ NoDup (PyDict.keys nc)
  ∧ ∀ k, k ∈ PyDict.keys nc ↔ ∃ c, c ∈ dom upstream ∧ k = str c.
Proof.
intros Hcontract. unfold sensor_fn, tick_decision.
destruct (load_cursor (cursor context)) as [prev|e]; [|done].
destruct (toposort upstream) as [layers|e] eqn:Hts; [|done]. cbn [rbind].
destruct (sensor_loop upstream and_condition wait (instance context) prev
            (toposort_assets upstream layers)) as [L nc] eqn:Hloop.
destruct (bool_decide (0 < length L)%nat); [|done].
intros [= <- <-]. exists L, nc. do 2 (split; [done|]).
replace nc with
  (sensor_loop upstream and_condition wait (instance context) prev
     (toposort_assets upstream layers)).2 by by rewrite Hloop.
split; [apply loop_NoDup_keys, NoDup_nil_2|].
intros k. unfold sensor_loop. rewrite loop_keys.
destruct (Hcontract layers eq_refl) as (_ & Hall & _).
rewrite Forall_forall in Hall. split.
- intros [Hk|(a & Ha & ->)]; [by apply elem_of_nil in Hk|].
  exists a. split; [|done].
  by apply list_elem_of_filter in Ha as [? _].
- intros (a & Ha & ->). right. exists a. split; [|done].
  apply list_elem_of_filter. split; [done|].
  apply Hall. by apply elem_of_elements.
Qed.

(** C8, as the code has it: when [toposort] keeps its contract, the
  sequence of assets that the tick visits lists exactly the keys of
  [upstream], each once, and a monitored parent comes before its
  monitored child.  Inside a layer the sequence follows the iteration
  order of the layer as [toposort] returned it: it is the
  concatenation of the layers, each restricted to the keys of
  [upstream]. *)
Theorem toposort_assets_order upstream (layers : list (list AssetKey)) :
toposort_contract upstream layers →
let order := toposort_assets upstream layers in
NoDup order
∧ (∀ a, a ∈ order ↔ a ∈ dom upstream)
∧ (∀ a b ps,
     upstream !! b = Some ps → a ∈ ps → a ≠ b → a ∈ dom upstream →
     ∃ l1 l2 l3, order = l1 ++ a :: l2 ++ b :: l3)
∧ order = concat (filter (λ asset, asset ∈ dom upstream) <$> layers).
Proof.
intros Hcontract order. subst order.
split; [|split; [|split]].
- by apply toposort_assets_NoDup.
- intros a. by apply elem_of_toposort_assets.
- intros a b ps. by apply toposort_assets_precedes.
- apply toposort_assets_concat.
Qed.


End claims.

(** * The sensor on the graph of its docstring *)

Lemma append_inj_l (s a b : string) : a +:+ s = b +:+ s → a = b.
Proof.
  assert (∀ x y, String.length (x +:+ y)
                 = (String.length x + String.length y)%nat) as Hlen.
  { induction x as [|ch x IH]; intros y; simpl; [done | by rewrite IH]. }
  revert b. induction a as [|ch a IH]; intros [|ch' b]; intros Heq.
  - done.
  - apply (f_equal String.length) in Heq.
    rewrite !Hlen in Heq. cbn [String.length] in Heq. lia.
  - apply (f_equal String.length) in Heq.
    rewrite !Hlen in Heq. cbn [String.length] in Heq. lia.
  - cbn [String.append] in Heq. injection Heq as -> Heq. f_equal. by apply IH.
Qed.

Lemma key_str_inj : Inj (=) (=) Store.key_str.
Proof.
  intros a b Heq. unfold Store.key_str in Heq.
  apply String.app_inj in Heq. by apply append_inj_l in Heq.
Qed.

(** Case analysis on membership in an explicit list. *)
Ltac each_member H :=
  repeat (apply elem_of_cons in H as [->|H]);
  [.. | by apply elem_of_nil in H].

(** Evaluates the decision of a tick inside [sensor_fn]; the contexts,
    which hold the queries of the store, are compared as they stand. *)
Ltac run_tick :=
  unfold sensor_fn;
  match goal with
  | |- context [tick_decision ?u ?a ?w ?c] =>
      let r := eval vm_compute in (tick_decision u a w c) in
      replace (tick_decision u a w c) with r by (vm_compute; reflexivity)
  end;
  reflexivity.

Module Scenarios.
Import Store.

(** The behaviour listed in the docstring of
    [build_asset_reconciliation_sensor], in all-mode with
    [wait_for_in_progress_runs] on: (1) after [a], [b] and [c]
    materialized the tick launches the three selected assets; (2) the
    next tick, with nothing new, launches nothing; (5) with only [b]
    materialized again, nothing launches; (6) with a materialization of
    [a] in progress, nothing launches. *)
Example docstring_behaviour :
  tick_decision def_upstream true true
    (context_of (event_store upstream_runs []) None)
  = Ok (["e"; "d"; "f"], first_cursor)
  ∧ tick_decision def_upstream true true
      (written_context (event_store upstream_runs []) first_cursor)
    = Ok ([], first_cursor)
  ∧ tick_decision def_upstream true true
      (written_context (event_store b_again []) first_cursor)
    = Ok ([], first_cursor)
  ∧ tick_decision def_upstream true true
      (written_context (event_store a_in_flight ["r4"]) first_cursor)
    = Ok ([], first_cursor).
Proof. by vm_compute. Qed.

Lemma parent_update_status_cases_witness :
  PyDict.get
    (_get_parent_updates (event_store co_materialization []) "d" ["a"; "b"]
       2 [] true) "b"
  = Some (false, 6%Q)
  ∧ PyDict.get
      (_get_parent_updates (event_store co_materialization []) "e" ["b"; "c"]
         3 [] true) "b"
    = Some (true, 6%Q).
Proof.
  split.
  - refine (proj1 (proj2 (proj2
      (parent_update_status_cases (event_store co_materialization [])
         "d" ["a"; "b"] 2 [] true "b" _ _) _) _) _).
    + right; left.
    + right. intros q Hq _. each_member Hq; reflexivity.
    + apply not_elem_of_nil.
    + reflexivity.
    + apply (bool_decide_unpack _). by vm_compute.
  - refine (proj2 (proj2 (proj2
      (parent_update_status_cases (event_store co_materialization [])
         "e" ["b"; "c"] 3 [] true "b" _ _) _) _) _).
    + left.
    + right. intros q Hq _. each_member Hq; reflexivity.
    + apply not_elem_of_nil.
    + reflexivity.
    + apply (bool_decide_unpack _). by vm_compute.
Defined.

Lemma launch_rule_and_next_cursor_witness :
  let final :=
    sensor_loop def_upstream true true (event_store upstream_runs []) []
      ["e"; "d"; "f"] in
  "d" ∈ final.1
  ∧ ∃ m, PyDict.get final.2 (key_str "d") = Some m ∧ (0 <= m)%Q.
Proof.
  intros final.
  pose proof (launch_rule_and_next_cursor def_upstream true true
                (event_store upstream_runs []) [] ["e"] "d" ["f"]
                key_str_inj) as Hrule.
  assert (NoDup (["e"] ++ "d" :: ["f"])) as Hnd.
  { apply (bool_decide_unpack _). by vm_compute. }
  destruct (Hrule Hnd) as (Hiff & Hcur & _).
  assert ("d" ∈ final.1) as Hd.
  { apply Hiff. intros r Hr. vm_compute in Hr. each_member Hr; reflexivity. }
  split; [exact Hd|].
  destruct (Hcur Hd) as (m & Hm & Hle & _).
  exists m. split; [exact Hm | exact Hle].
Defined.

(** Against C3 as stated, twice.  In the first log [p] is a parent of
    [c] and its latest planned materialization is in the run [r2], which
    is in progress; [p] is launched by this tick, so it is not checked,
    its entry for [c] is [(True, 0.0)] and [c] launches.  In the second
    log [p] has a planned materialization in the run [r0], which is in
    progress, but a later one in the finished run [r1]; only the latest
    is looked at, and [c] launches. *)
Lemma in_flight_parent_not_always_deferring :
  let inst := event_store p_in_flight ["r2"] in
  let inst' := event_store p_older_run_in_flight ["r0"] in
  chain_upstream !! "c" = Some ["p"]
  ∧ planned_in_progress inst "p" = true
  ∧ tick_decision chain_upstream true true (context_of inst None)
    = Ok (["p"; "c"], [(key_str "p", 5%Q); (key_str "c", 0%Q)])
  ∧ _get_parent_updates inst "c" ["p"] 0 ["p"] true = [("p", (true, 0%Q))]
  ∧ get_runs inst' ["r0"] = ["r0"]
  ∧ "p" ∈ asset_key <$>
          get_records_for_run inst' "r0" ASSET_MATERIALIZATION_PLANNED
  ∧ tick_decision chain_upstream true true (context_of inst' None)
    = Ok (["c"], [(key_str "p", 0%Q); (key_str "c", 2%Q)]).
Proof.
  intros inst inst'. do 5 (split; [by vm_compute|]).
  split; [apply (bool_decide_unpack _); by vm_compute | by vm_compute].
Qed.

Lemma in_flight_parent_defers_child_witness :
  "e" ∉ (sensor_loop def_upstream true true
           (event_store c_in_flight ["r4"]) first_cursor ["e"; "d"; "f"]).1.
Proof.
  refine (proj2 (proj2
    (in_flight_parent_defers_child def_upstream true
       (event_store c_in_flight ["r4"]) first_cursor [] "e" ["d"; "f"] "c"
       key_str_inj _ _ _ _))).
  - apply (bool_decide_unpack _). by vm_compute.
  - apply (bool_decide_unpack _). by vm_compute.
  - apply not_elem_of_nil.
  - eexists _, _. split; [by vm_compute | by vm_compute].
Defined.

(** C4: the claim fails on the code at this input.  The latest completed
    materialization of [b], at time 6, is in a run that also planned
    [d], and the cursor of [d] is 2.  The entry of [b] for [d] is
    [(False, 6)], so the event does not launch [d].  In all-mode the
    tick launches nothing and returns the context it was given: the
    cursor is not written.  In any-mode the tick launches [e] and [f]
    and writes the cursor, in which the entry of [d] is still 2. *)
Theorem co_materialized_cursor_not_advanced :
  let inst := event_store co_materialization [] in
  let context := context_of inst (Some (cursor_dumps first_cursor)) in
  _get_parent_updates inst "d" ["a"; "b"] 2 [] true
    = [("a", (false, 0%Q)); ("b", (false, 6%Q))]
  ∧ sensor_fn def_upstream true true context = Ok (context, None)
  ∧ tick_decision def_upstream false true context
    = Ok (["e"; "f"],
          [(key_str "e", 6%Q); (key_str "d", 2%Q); (key_str "f", 6%Q)]).
Proof.
  intros inst context. split; [by vm_compute|]. split; [run_tick|].
  by vm_compute.
Qed.



Lemma cursor_monotone_witness :
  let context :=
    context_of (event_store a_again []) (Some (cursor_dumps first_cursor)) in
  let nc := [(key_str "e", 3%Q); (key_str "d", 4%Q); (key_str "f", 0%Q)] in
  ∃ prev L nc',
    (cursor context = None ∧ prev = []
     ∨ cursor context = Some EmptyString ∧ prev = []
     ∨ ∃ s, cursor context = Some s ∧ s ≠ EmptyString
            ∧ json_loads s = Ok prev)
    ∧ tick_decision def_upstream false true context = Ok (L, nc')
    ∧ cursor (written_context (event_store a_again []) nc)
      = Some (json_dumps nc')
    ∧ ∀ c v, PyDict.get nc' (str c) = Some v →
             (PyDict.get_default prev (str c) 0%Q <= v)%Q.
Proof.
  intros context nc.
  apply (cursor_monotone def_upstream false true context
           (written_context (event_store a_again []) nc)
           (request_for nc ["d"; "f"])).
  run_tick.
Defined.

Lemma empty_launch_keeps_cursor_witness :
  let context :=
    context_of (event_store upstream_runs [])
      (Some (cursor_dumps first_cursor)) in
  sensor_fn def_upstream true true context = Ok (context, None).
Proof.
  intros context.
  apply (empty_launch_keeps_cursor def_upstream true true context
           first_cursor).
  vm_compute. reflexivity.
Defined.

(** Against C8 as stated: [toposort] returns the layer of [d] and [e] as
    a set; iterated as [e], [d], the tick visits [e] before [d] although
    the key string of [d] is the smaller one; iterated as [d], [e], it
    visits [d] first.  Both layerings keep the contract. *)
Lemma layer_order_not_by_key :
  toposort def_upstream = Ok [["c"; "a"; "b"]; ["e"; "d"]; ["f"]]
  ∧ toposort_contract def_upstream [["c"; "a"; "b"]; ["e"; "d"]; ["f"]]
  ∧ toposort_assets def_upstream [["c"; "a"; "b"]; ["e"; "d"]; ["f"]]
    = ["e"; "d"; "f"]
  ∧ String.ltb (key_str "d") (key_str "e") = true
  ∧ toposort_contract def_upstream [["c"; "a"; "b"]; ["d"; "e"]; ["f"]]
  ∧ toposort_assets def_upstream [["c"; "a"; "b"]; ["d"; "e"]; ["f"]]
    = ["d"; "e"; "f"].
Proof.
  split; [by vm_compute|].
  split; [apply (bool_decide_unpack _); by vm_compute|].
  split; [by vm_compute|].
  split; [by vm_compute|].
  split; [apply (bool_decide_unpack _); by vm_compute | by vm_compute].
Qed.

Lemma toposort_assets_order_witness :
  let order :=
    toposort_assets def_upstream [["c"; "a"; "b"]; ["e"; "d"]; ["f"]] in
  NoDup order
  ∧ ∃ l1 l2 l3, order = l1 ++ "d" :: l2 ++ "f" :: l3.
Proof.
  intros order.
  assert (toposort_contract def_upstream
            [["c"; "a"; "b"]; ["e"; "d"]; ["f"]]) as Hcontract.
  { apply (bool_decide_unpack _). by vm_compute. }
  destruct (toposort_assets_order def_upstream _ Hcontract)
    as (Hnd & _ & Hbefore & _).
  split; [exact Hnd|].
  apply (Hbefore "d" "f" ["d"; "e"]).
  - by vm_compute.
  - left.
  - discriminate.
  - apply (bool_decide_unpack _). by vm_compute.
Defined.

(** Against C9 as stated: on the cursor string [{], which [json.loads]
    rejects, the tick raises; on an absent cursor the same tick launches
    [e], [d] and [f]. *)
Lemma corrupt_cursor_fails_tick :
  let inst := event_store upstream_runs [] in
  json_loads "{" = Raise JSONDecodeError
  ∧ sensor_fn def_upstream true true (context_of inst (Some "{"))
    = Raise JSONDecodeError
  ∧ sensor_fn def_upstream true true (context_of inst None)
    = Ok (written_context inst first_cursor,
          Some (request_for first_cursor ["e"; "d"; "f"])).
Proof.
  intros inst. split; [by vm_compute|]. split; [by vm_compute | run_tick].
Qed.

Lemma corrupt_cursor_raises_witness :
  let inst := event_store upstream_runs [] in
  load_cursor (cursor (context_of inst None)) = Ok []
  ∧ sensor_fn def_upstream true true (context_of inst (Some "{"))
    = Raise JSONDecodeError.
Proof.
  intros inst. split.
  - apply (proj1 (corrupt_cursor_raises def_upstream true true
                    (context_of inst None))).
    by left.
  - apply (proj2 (corrupt_cursor_raises def_upstream true true
                    (context_of inst (Some "{"))) "{" JSONDecodeError).
    + reflexivity.
    + discriminate.
    + by vm_compute.
Defined.

Lemma written_cursor_keys_witness :
  let inst := event_store upstream_runs [] in
  ∃ L nc,
    tick_decision def_upstream true true (context_of inst None) = Ok (L, nc)
    ∧ cursor (written_context inst first_cursor) = Some (json_dumps nc)
    ∧ NoDup (PyDict.keys nc)
    ∧ ∀ k, k ∈ PyDict.keys nc ↔ ∃ c, c ∈ dom def_upstream ∧ k = str c.
Proof.
  intros inst.
  apply (written_cursor_keys def_upstream true true (context_of inst None)
           (written_context inst first_cursor)
           (request_for first_cursor ["e"; "d"; "f"])).
  - intros layers Hlayers. vm_compute in Hlayers. injection Hlayers as <-.
    apply (bool_decide_unpack _). by vm_compute.
  - run_tick.
Defined.

End Scenarios.

(** * Further properties of the sensor *)

(** ** [_get_upstream_mapping] *)

Section upstream_mapping_props.
Context {AssetKey : Type} `{Countable AssetKey}.
Variable upstream_depth1 : AssetKey → list AssetKey.

Lemma upstream_mapping_lookup (selection : list AssetKey)
    (m : gmap AssetKey (list AssetKey)) a :
  foldl (λ upstream a,
           <[a := filter (λ p, p ≠ a) (upstream_depth1 a)]> upstream)
        m selection !! a
  = if decide (a ∈ selection)
    then Some (filter (λ p, p ≠ a) (upstream_depth1 a))
    else m !! a.
Proof.
  revert m. induction selection as [|b selection IH]; intros m.
  - cbn [foldl]. rewrite decide_False; [done | apply not_elem_of_nil].
  - cbn [foldl]. rewrite IH. destruct (decide (a ∈ selection)) as [Hin|Hnin].
    + rewrite decide_True; [done | by right].
    + destruct (decide (a = b)) as [->|Hne].
      * rewrite decide_True by left. apply lookup_insert_eq.
      * rewrite decide_False by (by intros [?|?]%elem_of_cons).
        by apply lookup_insert_ne.
Qed.

(** X1: the upstream mapping has exactly the resolved selection as its
    keys; the entry of a selected asset is its depth-1 upstream
    selection without the asset itself, so no asset is its own parent. *)
Theorem upstream_mapping_entries (selection : list AssetKey) :
  let upstream := _get_upstream_mapping selection upstream_depth1 in
  (∀ a, a ∈ dom upstream ↔ a ∈ selection)
  ∧ (∀ a, a ∈ selection →
          upstream !! a = Some (filter (λ p, p ≠ a) (upstream_depth1 a)))
  ∧ (∀ a ps, upstream !! a = Some ps → a ∉ ps).
Proof.
  intros upstream. subst upstream. unfold _get_upstream_mapping.
  split; [|split].
  - intros a. rewrite elem_of_dom, upstream_mapping_lookup.
    destruct (decide (a ∈ selection)) as [Hin|Hnin].
    + split; [done | by eexists].
    + rewrite lookup_empty. split; [by intros [? ?] | done].
  - intros a Ha. by rewrite upstream_mapping_lookup, decide_True.
  - intros a ps. rewrite upstream_mapping_lookup.
    destruct (decide (a ∈ selection)); [|by rewrite lookup_empty].
    intros [= <-]. by intros [? _]%list_elem_of_filter.
Qed.
End upstream_mapping_props.

(** ** [_get_parent_updates] *)

Section more_parent_updates_props.
Context {AssetKey : Type} `{EqDecision AssetKey}.
Implicit Types (inst : DagsterInstance AssetKey).
Implicit Types (P L : list AssetKey) (c p : AssetKey).

(** X2: whatever the event log holds, and whether or not the loop
    returns early, the result has one entry for every parent and no
    other entry, each key once. *)
Theorem parent_updates_keys inst c P (t_c : Q) L (wait : bool) :
  let records := _get_parent_updates inst c P t_c L wait in
  NoDup (PyDict.keys records)
  ∧ ∀ p, p ∈ PyDict.keys records ↔ p ∈ P.
Proof.
  intros records. subst records.
  destruct (parent_updates_shape inst c P t_c L wait) as [f ->]. split.
  - apply NoDup_keys_assign_all, NoDup_nil_2.
  - intros p. rewrite elem_of_keys_assign_all. split; [|by left].
    intros [?|Hp]; [done | by apply elem_of_nil in Hp].
Qed.

(** X3: the parents are a set, and the order in which it is iterated
    does not matter: for two orders of the same parents every parent
    has the same entry, and the launch condition has the same value. *)
Theorem parent_updates_order_irrelevant inst c P P' (t_c : Q) L
    (wait and_condition : bool) :
  P ≡ₚ P' →
  (∀ p, PyDict.get (_get_parent_updates inst c P t_c L wait) p
        = PyDict.get (_get_parent_updates inst c P' t_c L wait) p)
  ∧ condition and_condition
      (fst <$> PyDict.values (_get_parent_updates inst c P t_c L wait))
    = condition and_condition
        (fst <$> PyDict.values (_get_parent_updates inst c P' t_c L wait)).
Proof.
  intros Hperm.
  assert (∀ p, p ∈ P ↔ p ∈ P') as Hmem by (intros p; by rewrite Hperm).
  assert (∃ f, _get_parent_updates inst c P t_c L wait
                 = PyDict.assign_all f P []
               ∧ _get_parent_updates inst c P' t_c L wait
                 = PyDict.assign_all f P' []) as (f & -> & ->).
  { destruct (in_flight_dec inst P L wait)
      as [(Hw & p & Hp & HpL & Hpip)|Hrun].
    - eexists. split; [by eapply parent_updates_abort|].
      eapply parent_updates_abort; [done | by apply Hmem | done..].
    - eexists. split; [by apply parent_updates_run|].
      apply parent_updates_run. destruct Hrun as [?|Hrun]; [by left|].
      right. intros q Hq. apply Hrun. by apply Hmem. }
  split.
  - intros p. rewrite !get_assign_all.
    destruct (decide (p ∈ P)) as [Hp|Hp].
    + by rewrite decide_True by by apply Hmem.
    + by rewrite decide_False by (intros ?; by apply Hp, Hmem).
  - unfold condition. destruct and_condition.
    + apply eq_true_iff_eq. rewrite !all_flags_true.
      split; intros Hall k Hk; apply Hall; by apply Hmem.
    + apply eq_true_iff_eq. rewrite !any_flag_true.
      split; intros (k & Hk & Hflag); exists k; (split; [by apply Hmem|done]).
Qed.

(** X4: a parent is reported as updated only for a reason.  An entry
    with a true flag belongs to a parent in the launch list, or to a
    parent whose latest completed materialization is after the cursor
    and in a run that did not plan the child.  The timestamp of an
    entry is [0.0] or that of the parent's latest completed
    materialization, and then it is after the cursor. *)
Theorem parent_updates_entry_sound inst c P (t_c : Q) L (wait : bool) p
    (flag : bool) (ts : Q) :
  PyDict.get (_get_parent_updates inst c P t_c L wait) p = Some (flag, ts) →
  (flag = true →
   (p ∈ L ∧ ts = 0%Q)
   ∨ ∃ e rest,
       get_event_records inst ASSET_MATERIALIZATION p = e :: rest
       ∧ ts = timestamp e ∧ (t_c < ts)%Q
       ∧ c ∉ asset_key <$> get_records_for_run inst (run_id e)
                             ASSET_MATERIALIZATION_PLANNED)
  ∧ (ts = 0%Q
     ∨ ∃ e rest,
         get_event_records inst ASSET_MATERIALIZATION p = e :: rest
         ∧ ts = timestamp e ∧ (t_c < ts)%Q).
Proof.
  destruct (in_flight_dec inst P L wait)
    as [(Hw & q & Hq & HqL & Hpip)|Hrun].
  { rewrite (parent_updates_abort inst c P t_c L wait q) by done.
    rewrite get_assign_all. destruct (decide (p ∈ P)) as [HpP|HpP]; [|done].
    intros [= <- <-]. split; [done | by left]. }
  rewrite parent_updates_run by done. rewrite get_assign_all.
  destruct (decide (p ∈ P)) as [HpP|HpP]; [|done].
  destruct (decide (p ∈ L)) as [HpL|HpL].
  { rewrite bool_decide_eq_true_2 by done. intros [= <- <-].
    split; [by left | by left]. }
  rewrite bool_decide_eq_false_2 by done. unfold completed_status.
  destruct (get_event_records inst ASSET_MATERIALIZATION p) as [|e rest];
    [intros [= <- <-]; split; [done | by left]|].
  destruct (Qgtb (timestamp e) t_c) eqn:Hgt;
    [|intros [= <- <-]; split; [done | by left]].
  apply Qgtb_true in Hgt.
  destruct (decide (c ∈ asset_key <$> get_records_for_run inst (run_id e)
                          ASSET_MATERIALIZATION_PLANNED)) as [Hc|Hc].
  - rewrite bool_decide_eq_true_2 by done. intros [= <- <-].
    split; [done|]. right. by exists e, rest.
  - rewrite bool_decide_eq_false_2 by done. intros [= <- <-].
    split; [intros _|]; right; by exists e, rest.
Qed.

(** X5: with [wait_for_in_progress_runs] off, planned materializations
    and run statuses are not looked at: two instances that agree on the
    completed materializations and on the assets planned in each run
    give the same result. *)
Theorem parent_updates_without_wait inst inst' c P (t_c : Q) L :
  (∀ p, get_event_records inst ASSET_MATERIALIZATION p
        = get_event_records inst' ASSET_MATERIALIZATION p) →
  (∀ r, get_records_for_run inst r ASSET_MATERIALIZATION_PLANNED
        = get_records_for_run inst' r ASSET_MATERIALIZATION_PLANNED) →
  _get_parent_updates inst c P t_c L false
  = _get_parent_updates inst' c P t_c L false.
Proof.
  intros Hcompleted Hplanned.
  rewrite !parent_updates_run by by left.
  unfold PyDict.assign_all. generalize (@nil (AssetKey * (bool * Q))).
  induction P as [|p P IH]; intros records; [done|].
  cbn [foldl]. rewrite IH. do 2 f_equal.
  destruct (bool_decide (p ∈ L)); [done|].
  unfold completed_status. rewrite Hcompleted.
  destruct (get_event_records inst' ASSET_MATERIALIZATION p) as [|e rest];
    [done|].
  by rewrite Hplanned.
Qed.
End more_parent_updates_props.

(** ** The launch list and the cursor of a tick *)

Lemma sublist_precedes {A : Type} (l o1 o2 o3 : list A) (a b : A) :
  NoDup (o1 ++ a :: o2 ++ b :: o3) →
  l `sublist_of` o1 ++ a :: o2 ++ b :: o3 →
  a ∈ l → b ∈ l →
  ∃ l1 l2 l3, l = l1 ++ a :: l2 ++ b :: l3.
Proof.
  intros [Hnd1 [Hdisj [Ha Hnd2]%NoDup_cons]]%NoDup_app Hsub Hal Hbl.
  assert (a ≠ b) as Hab.
  { intros ->. apply Ha, elem_of_app. right. left. }
  apply sublist_app_r in Hsub as (k1 & k2 & -> & Hk1 & Hk2).
  assert (∀ x, x ∈ k1 → x ∈ o1) as Hk1in.
  { intros x Hx. by eapply elem_of_sublist. }
  assert (a ∉ k1) as Hak1.
  { intros Hin%Hk1in. apply (Hdisj a Hin). left. }
  assert (b ∉ k1) as Hbk1.
  { intros Hin%Hk1in. apply (Hdisj b Hin). right. apply elem_of_app.
    right. left. }
  apply elem_of_app in Hal as [?|Hal]; [done|].
  apply elem_of_app in Hbl as [?|Hbl]; [done|].
  apply sublist_cons_r in Hk2 as [Hk2|(k2' & -> & Hk2)].
  { exfalso. apply Ha. by eapply elem_of_sublist. }
  apply elem_of_cons in Hbl as [?|Hbl]; [by subst|].
  apply list_elem_of_split in Hbl as (m1 & m2 & ->).
  by exists k1, m1, m2.
Qed.

Lemma assign_all_ext {K V : Type} `{EqDecision K} (f g : K → V)
    (ks : list K) (d : dict K V) :
  (∀ k, k ∈ ks → f k = g k) →
  PyDict.assign_all f ks d = PyDict.assign_all g ks d.
Proof.
  unfold PyDict.assign_all. revert d.
  induction ks as [|k ks IH]; intros d Hext; [done|].
  cbn [foldl]. rewrite (Hext k) by left. apply IH.
  intros k' Hk'. apply Hext. by right.
Qed.

Section more_loop_props.
Context {AssetKey : Type} `{Countable AssetKey} `{!Externals AssetKey}.
Implicit Types (inst : DagsterInstance AssetKey).
Implicit Types (upstream : gmap AssetKey (list AssetKey)).
Implicit Types (context : SensorContext AssetKey).
Implicit Types (L P : list AssetKey) (c p q : AssetKey).
Implicit Types (cursor_dict nc : dict string Q).

Lemma loop_fst_sublist upstream (and_condition wait : bool) inst cursor_dict
    (xs : list AssetKey) st :
  ∃ l, (foldl (sensor_step upstream and_condition wait inst cursor_dict)
          st xs).1 = st.1 ++ l
       ∧ l `sublist_of` xs.
Proof.
  revert st. induction xs as [|a xs IH]; intros st.
  - exists []. by rewrite app_nil_r.
  - cbn [foldl]. destruct (IH (sensor_step upstream and_condition wait inst
                                 cursor_dict st a)) as (l & -> & Hl).
    rewrite step_fst.
    destruct (launches upstream and_condition wait inst cursor_dict st.1 a).
    + exists (a :: l). rewrite <- app_assoc. split; [done|].
      by apply sublist_skip.
    + exists l. split; [done|]. by apply sublist_cons.
Qed.

(** X6: the assets of a run request are a non-empty selection of the
    assets the tick visited, in the order of the visit.  When [toposort]
    keeps its contract they are monitored assets, none twice, and a
    parent that is requested together with its child comes before it. *)
Theorem run_request_in_topological_order upstream (and_condition wait : bool)
    context context' (request : RunRequest AssetKey)
    (layers : list (list AssetKey)) :
  toposort upstream = Ok layers →
  toposort_contract upstream layers →
  sensor_fn upstream and_condition wait context = Ok (context', Some request) →
  let selection := asset_selection request in
  selection ≠ []
  ∧ selection `sublist_of` toposort_assets upstream layers
  ∧ NoDup selection
  ∧ (∀ a, a ∈ selection → a ∈ dom upstream)
  ∧ (∀ a b ps,
       a ∈ selection → b ∈ selection →
       upstream !! b = Some ps → a ∈ ps → a ≠ b →
       ∃ l1 l2 l3, selection = l1 ++ a :: l2 ++ b :: l3).
Proof.
  intros Hts Hcontract. unfold sensor_fn, tick_decision. rewrite Hts.
  destruct (load_cursor (cursor context)) as [prev|e]; [|done].
  cbn [rbind].
  destruct (sensor_loop upstream and_condition wait (instance context) prev
              (toposort_assets upstream layers)) as [L nc] eqn:Hloop.
  destruct (bool_decide (0 < length L)%nat) eqn:Hlen; [|done].
  intros [= <- <-]. cbn [asset_selection].
  apply bool_decide_eq_true in Hlen.
  destruct (loop_fst_sublist upstream and_condition wait (instance context)
              prev (toposort_assets upstream layers) ([], []))
    as (l & Hl & Hsub).
  fold (sensor_loop upstream and_condition wait (instance context) prev
          (toposort_assets upstream layers)) in Hl.
  rewrite Hloop in Hl. cbn [fst app] in Hl. subst l.
  pose proof (toposort_assets_NoDup upstream layers Hcontract) as Hnd.
  assert (∀ a, a ∈ L → a ∈ dom upstream) as Hmon.
  { intros a Ha. apply (elem_of_toposort_assets upstream layers a Hcontract).
    by eapply elem_of_sublist. }
  split; [by destruct L; [simpl in Hlen; lia|]|].
  split; [done|]. split; [by eapply sublist_NoDup|]. split; [done|].
  intros a b ps Ha Hb Hps Hin Hne.
  destruct (toposort_assets_precedes upstream layers a b ps Hcontract Hps Hin
              Hne (Hmon a Ha)) as (o1 & o2 & o3 & Horder).
  rewrite Horder in Hnd, Hsub. by eapply sublist_precedes.
Qed.

(** X7: a child all of whose parents are launched by the same tick is
    launched with them, in all-mode and in any-mode; the parents
    contribute the timestamp [0.0], so the cursor of the child stays at
    its value. *)
Theorem child_rides_along upstream (and_condition wait : bool) inst
    cursor_dict (pre : list AssetKey) c (post : list AssetKey) :
  Inj (=) (=) str →
  NoDup (pre ++ c :: post) →
  let L := (sensor_loop upstream and_condition wait inst cursor_dict pre).1 in
  let P := default [] (upstream !! c) in
  let t_c := PyDict.get_default cursor_dict (str c) 0%Q in
  P ≠ [] →
  (∀ p, p ∈ P → p ∈ L) →
  (0 <= t_c)%Q →
  let final :=
    sensor_loop upstream and_condition wait inst cursor_dict
      (pre ++ c :: post) in
  c ∈ final.1
  ∧ ∃ m, PyDict.get final.2 (str c) = Some m ∧ (m == t_c)%Q.
Proof.
  intros Hinj Hnd L P t_c HP Hall Ht final.
  destruct (loop_split upstream and_condition wait inst cursor_dict
              pre c post Hinj Hnd) as (Hlaunch & Hget & _ & _).
  fold (sensor_loop upstream and_condition wait inst cursor_dict pre) in *.
  fold (sensor_loop upstream and_condition wait inst cursor_dict
          (pre ++ c :: post)) in *.
  fold L final in Hlaunch, Hget.
  assert (parent_update_records upstream wait inst cursor_dict L c
          = PyDict.assign_all (λ _, (true, 0%Q)) P []) as Hrec.
  { unfold parent_update_records. fold P.
    rewrite parent_updates_run by (right; intros q Hq HqL; by apply Hall in Hq).
    apply assign_all_ext. intros p Hp.
    by rewrite bool_decide_eq_true_2 by by apply Hall. }
  assert (launches upstream and_condition wait inst cursor_dict L c = true)
    as Hl.
  { unfold launches, condition. rewrite Hrec. destruct and_condition.
    - by apply all_flags_true.
    - apply any_flag_true. destruct P as [|p0 P']; [done|].
      exists p0. split; [left | done]. }
  split; [by apply Hlaunch|].
  rewrite Hl in Hget. eexists. split; [exact Hget|].
  unfold launched_cursor. rewrite Hrec. fold (a_cursor cursor_dict c).
  change (a_cursor cursor_dict c) with t_c.
  set (stamps := snd <$> PyDict.values
                           (PyDict.assign_all (λ _, (true, 0%Q)) P [])).
  assert (t_c <= py_max (stamps ++ [t_c]))%Q as Hub.
  { apply py_max_ub, elem_of_app. right. left. }
  assert (py_max (stamps ++ [t_c]) ∈ stamps ++ [t_c]) as Hin.
  { apply py_max_in. by destruct stamps. }
  apply elem_of_app in Hin as [Hin|Hin].
  - apply elem_of_stamps in Hin as (k & _ & Hk). simpl in Hk.
    rewrite Hk in Hub |- *. lra.
  - apply list_elem_of_singleton in Hin. by rewrite Hin.
Qed.

(** X8: in all-mode, a child with a parent that is not monitored and has
    no completed materialization, such as a source asset, is never
    launched, whatever the cursor and the rest of the event log. *)
Theorem unmaterialized_parent_blocks_child upstream (wait : bool) context
    L nc c p :
  tick_decision upstream true wait context = Ok (L, nc) →
  p ∈ default [] (upstream !! c) →
  p ∉ dom upstream →
  get_event_records (instance context) ASSET_MATERIALIZATION p = [] →
  c ∉ L.
Proof.
  unfold tick_decision.
  destruct (load_cursor (cursor context)) as [prev|e]; [|done].
  destruct (toposort upstream) as [layers|e]; [|done]. cbn [rbind].
  intros [= Hloop] Hp Hmon Hnone.
  set (inst := instance context) in *.
  assert (∀ L', p ∉ L' → launches upstream true wait inst prev L' c = false)
    as Hblocked.
  { intros L' HpL'. unfold launches, parent_update_records, condition.
    destruct (parent_updates_shape inst c (default [] (upstream !! c))
                (a_cursor prev c) L' wait) as [f Hf].
    pose proof (get_assign_all f (default [] (upstream !! c)) [] p) as Hget.
    rewrite <- Hf, decide_True in Hget by done.
    rewrite Hf. apply all_flags_false. exists p. split; [done|].
    destruct (in_flight_dec inst (default [] (upstream !! c)) L' wait)
      as [(Hw & q & Hq & HqL & Hpip)|Hrun].
    - rewrite (parent_updates_abort inst c _ (a_cursor prev c) L' wait q)
        in Hget by done.
      rewrite get_assign_all, decide_True in Hget by done.
      by injection Hget as <-.
    - rewrite parent_updates_run, get_assign_all, decide_True in Hget by done.
      rewrite bool_decide_eq_false_2 in Hget by done.
      unfold completed_status in Hget. rewrite Hnone in Hget.
      by injection Hget as <-. }
  assert (∀ xs st,
            (∀ x, x ∈ xs → x ∈ dom upstream) →
            (∀ x, x ∈ st.1 → x ∈ dom upstream ∧ x ≠ c) →
            c ∉ (foldl (sensor_step upstream true wait inst prev) st xs).1)
    as Hnever.
  { induction xs as [|a xs IH]; intros st Hxs Hst.
    - intros Hc. by destruct (Hst c Hc).
    - cbn [foldl]. apply IH; [intros x Hx; apply Hxs; by right|].
      intros x. rewrite step_fst.
      destruct (launches upstream true wait inst prev st.1 a) eqn:Hl;
        [|apply Hst].
      intros [Hx|Hx]%elem_of_app; [by apply Hst|].
      apply list_elem_of_singleton in Hx as ->.
      split; [apply Hxs; left|]. intros ->.
      rewrite Hblocked in Hl; [done|].
      intros HpL. by destruct (Hst p HpL). }
  replace L with
    (sensor_loop upstream true wait inst prev
       (toposort_assets upstream layers)).1 by by rewrite Hloop.
  apply Hnever.
  - intros x Hx. by apply list_elem_of_filter in Hx as [? _].
  - by intros x ?%elem_of_nil.
Qed.

(** X9: in any-mode, a child is launched as soon as one parent outside
    the launch list has a completed materialization after the child's
    cursor in a run that did not plan the child, provided the loop of
    [_get_parent_updates] is not cut short by a run in progress. *)
Theorem any_mode_launches_on_fresh_parent upstream (wait : bool) inst
    cursor_dict (pre : list AssetKey) c (post : list AssetKey) p
    (e : EventLogRecord AssetKey) (rest : list (EventLogRecord AssetKey)) :
  Inj (=) (=) str →
  NoDup (pre ++ c :: post) →
  let L := (sensor_loop upstream false wait inst cursor_dict pre).1 in
  let P := default [] (upstream !! c) in
  let t_c := PyDict.get_default cursor_dict (str c) 0%Q in
  (wait = false ∨ ∀ q, q ∈ P → q ∉ L → planned_in_progress inst q = false) →
  p ∈ P →
  p ∉ L →
  get_event_records inst ASSET_MATERIALIZATION p = e :: rest →
  (t_c < timestamp e)%Q →
  c ∉ asset_key <$> get_records_for_run inst (run_id e)
                      ASSET_MATERIALIZATION_PLANNED →
  c ∈ (sensor_loop upstream false wait inst cursor_dict (pre ++ c :: post)).1.
Proof.
  intros Hinj Hnd L P t_c Hrun Hp HpL He Hlt Hc.
  destruct (loop_split upstream false wait inst cursor_dict
              pre c post Hinj Hnd) as (Hlaunch & _).
  unfold sensor_loop. apply Hlaunch.
  fold (sensor_loop upstream false wait inst cursor_dict pre). fold L.
  unfold launches, parent_update_records, condition. fold P.
  rewrite parent_updates_run by done.
  apply any_flag_true. exists p. split; [done|].
  rewrite bool_decide_eq_false_2 by done.
  unfold completed_status. rewrite He.
  apply Qgtb_true in Hlt. unfold a_cursor. fold t_c. rewrite Hlt.
  by rewrite bool_decide_eq_false_2.
Qed.

(** X10: the cursor written for a launched child covers its parents: for
    every parent that is not launched by the same tick, the latest
    completed materialization is not after the new cursor of the
    child. *)
Theorem launched_cursor_covers_parents upstream (and_condition wait : bool)
    inst cursor_dict (pre : list AssetKey) c (post : list AssetKey) p
    (e : EventLogRecord AssetKey) (rest : list (EventLogRecord AssetKey)) :
  Inj (=) (=) str →
  NoDup (pre ++ c :: post) →
  let L := (sensor_loop upstream and_condition wait inst cursor_dict pre).1 in
  let final :=
    sensor_loop upstream and_condition wait inst cursor_dict
      (pre ++ c :: post) in
  p ∈ default [] (upstream !! c) →
  p ∉ L →
  get_event_records inst ASSET_MATERIALIZATION p = e :: rest →
  c ∈ final.1 →
  ∃ m, PyDict.get final.2 (str c) = Some m ∧ (timestamp e <= m)%Q.
Proof.
  intros Hinj Hnd L final Hp HpL He Hc.
  destruct (loop_split upstream and_condition wait inst cursor_dict
              pre c post Hinj Hnd) as (Hlaunch & Hget & _ & _).
  fold (sensor_loop upstream and_condition wait inst cursor_dict pre) in *.
  fold (sensor_loop upstream and_condition wait inst cursor_dict
          (pre ++ c :: post)) in *.
  fold L final in Hlaunch, Hget.
  apply Hlaunch in Hc. rewrite Hc in Hget.
  eexists. split; [exact Hget|].
  set (P := default [] (upstream !! c)) in *.
  set (t_c := a_cursor cursor_dict c).
  unfold launches, parent_update_records, condition in Hc.
  unfold launched_cursor, parent_update_records. fold P t_c in Hc |- *.
  destruct (in_flight_dec inst P L wait)
    as [(Hw & q & Hq & HqL & Hpip)|Hrun].
  { exfalso.
    rewrite (parent_updates_abort inst c P t_c L wait q) in Hc by done.
    destruct and_condition.
    - assert (py_all (fst <$> PyDict.values
                        (PyDict.assign_all (λ _ : AssetKey, (false, 0%Q)) P []))
              = false) as Hf by (apply all_flags_false; by exists p).
      by rewrite Hf in Hc.
    - assert (py_any (fst <$> PyDict.values
                        (PyDict.assign_all (λ _ : AssetKey, (false, 0%Q)) P []))
              = false) as Hf by by apply any_flag_false.
      by rewrite Hf in Hc. }
  rewrite parent_updates_run by done.
  set (status := λ p, if bool_decide (p ∈ L) then (true, 0%Q)
                      else completed_status inst c t_c p).
  set (stamps := snd <$> PyDict.values (PyDict.assign_all status P [])).
  assert (t_c <= py_max (stamps ++ [t_c]))%Q as Ht.
  { apply py_max_ub, elem_of_app. right. left. }
  assert ((status p).2 <= py_max (stamps ++ [t_c]))%Q as Hs.
  { apply py_max_ub, elem_of_app. left. apply elem_of_stamps. by exists p. }
  unfold status in Hs. rewrite bool_decide_eq_false_2 in Hs by done.
  destruct (completed_stamp inst c t_c p e rest He) as [Hle|Heq]; [lra|].
  by rewrite Heq in Hs.
Qed.

(** X11: for a child with at least one parent, all-mode is the stricter
    condition: with the same cursor and launch list, a child that
    launches in all-mode launches in any-mode. *)
Theorem all_mode_stricter_than_any upstream (wait : bool) inst cursor_dict
    L c :
  default [] (upstream !! c) ≠ [] →
  launches upstream true wait inst cursor_dict L c = true →
  launches upstream false wait inst cursor_dict L c = true.
Proof.
  intros HP. unfold launches, parent_update_records, condition.
  destruct (parent_updates_shape inst c (default [] (upstream !! c))
              (a_cursor cursor_dict c) L wait) as [f ->].
  rewrite all_flags_true, any_flag_true. intros Hall.
  destruct (default [] (upstream !! c)) as [|p0 P']; [done|].
  exists p0. split; [left | apply Hall; left].
Qed.
End more_loop_props.

(** * Properties of the Airbyte reconciler *)

Module AirbyteProps.
Import Airbyte.

Section normalization_props.
Context {Config Operation Response Diff : Type}.
Context `{!Resource Config Operation Response Diff}.
Implicit Types (log : list (Request Config)).
Implicit Types (destination : InitializedAirbyteDestination.t Config).

(** The second half of [reconcile_normalization], after the lookup of
    the existing operation. *)
Lemma reconcile_normalization_eq (existing_connection_id : option string)
    destination (normalization_config : option bool) (workspace_id : string)
    log :
  reconcile_normalization existing_connection_id destination
    normalization_config workspace_id log
  = let finish (op_id : option string) log0 :=
      if negb (bool_decide (normalization_config = Some false)) then
        if does_dest_support_normalization destination workspace_id then
          if truthy op_id then (inl op_id, log0)
          else (inl (Some (response_id
                             (respond log0 (operations_create workspace_id)))),
                log0 ++ [operations_create workspace_id])
        else if bool_decide (normalization_config = Some true) then
          (inr (Exception
                  ("Destination "
                   +:+ AirbyteDestination.name
                         (InitializedAirbyteDestination.destination
                            destination)
                   +:+ " does not support normalization.")), log0)
        else (inl None, log0)
      else (inl None, log0) in
    match existing_connection_id with
    | Some connection_id =>
        if truthy existing_connection_id then
          match List.find is_basic_normalization_operation
                  (response_operations
                     (respond log (operations_list connection_id))) with
          | Some operation =>
              finish (Some (operationId operation))
                (log ++ [operations_list connection_id])
          | None => (inr TypeError, log ++ [operations_list connection_id])
          end
        else finish None log
    | None => finish None log
    end.
Proof.
  unfold reconcile_normalization, bind, make_request, ret, raise.
  destruct existing_connection_id as [connection_id|]; cbn zeta.
  - destruct (truthy (Some connection_id)).
    + destruct (List.find _ _); [|done].
      destruct (negb _); [|done]. destruct (does_dest_support_normalization _ _).
      * by destruct (truthy _).
      * by destruct (bool_decide _).
    + destruct (negb _); [|done]. destruct (does_dest_support_normalization _ _).
      * by destruct (truthy _).
      * by destruct (bool_decide _).
  - destruct (negb _); [|done]. destruct (does_dest_support_normalization _ _).
    + by destruct (truthy _).
    + by destruct (bool_decide _).
Qed.

Lemma truthy_Some (s : string) : s ≠ EmptyString → truthy (Some s) = true.
Proof. intros Hne. unfold truthy. by rewrite bool_decide_eq_false_2. Qed.

(** X12: for an existing connection none of whose operations is a basic
    normalization, [reconcile_normalization] raises [TypeError] right
    after listing the operations, whatever the normalization setting
    and the destination. *)
Theorem normalization_without_operation_raises (connection_id : string)
    destination (normalization_config : option bool) (workspace_id : string)
    log :
  connection_id ≠ EmptyString →
  List.find is_basic_normalization_operation
    (response_operations (respond log (operations_list connection_id)))
  = None →
  reconcile_normalization (Some connection_id) destination
    normalization_config workspace_id log
  = (inr TypeError, log ++ [operations_list connection_id]).
Proof.
  intros Hne Hfind. rewrite reconcile_normalization_eq. cbn zeta.
  by rewrite truthy_Some, Hfind.
Qed.

(** X13: no normalization operation is created when normalization is
    switched off or the destination does not support it: the only
    request that may be sent is the listing of the operations of the
    existing connection. *)
Theorem normalization_not_created (existing_connection_id : option string)
    destination (normalization_config : option bool) (workspace_id : string)
    log :
  normalization_config = Some false
  ∨ does_dest_support_normalization destination workspace_id = false →
  let log' :=
    (reconcile_normalization existing_connection_id destination
       normalization_config workspace_id log).2 in
  log' = log
  ∨ ∃ connection_id,
      existing_connection_id = Some connection_id
      ∧ log' = log ++ [operations_list connection_id].
Proof.
  intros Hoff log'. subst log'. rewrite reconcile_normalization_eq. cbn zeta.
  assert (∀ (op_id : option string) log0,
            (if negb (bool_decide (normalization_config = Some false)) then
               if does_dest_support_normalization destination workspace_id
               then
                 if truthy op_id then (inl op_id, log0)
                 else (inl (Some (response_id
                                    (respond log0
                                       (operations_create workspace_id)))),
                       log0 ++ [operations_create workspace_id])
               else if bool_decide (normalization_config = Some true) then
                 (inr (Exception
                         ("Destination "
                          +:+ AirbyteDestination.name
                                (InitializedAirbyteDestination.destination
                                   destination)
                          +:+ " does not support normalization.")), log0)
               else (@inl (option string) error None, log0)
             else (inl None, log0)).2 = log0) as Hfinish.
  { intros op_id log0. destruct Hoff as [-> | ->].
    - by rewrite bool_decide_eq_true_2.
    - destruct (negb _); [|done]. by destruct (bool_decide _). }
  destruct existing_connection_id as [connection_id|]; [|left; apply Hfinish].
  destruct (truthy (Some connection_id)); [|left; apply Hfinish].
  right. exists connection_id. split; [done|].
  destruct (List.find _ _); [apply Hfinish | done].
Qed.

(** X14: when normalization is not switched off and the destination
    supports it, a basic normalization operation that the existing
    connection already has is reused: its id is returned and nothing is
    created. *)
Theorem normalization_reuses_operation (connection_id : string) destination
    (normalization_config : option bool) (workspace_id : string) log
    (operation : Operation) :
  connection_id ≠ EmptyString →
  normalization_config ≠ Some false →
  does_dest_support_normalization destination workspace_id = true →
  List.find is_basic_normalization_operation
    (response_operations (respond log (operations_list connection_id)))
  = Some operation →
  operationId operation ≠ EmptyString →
  reconcile_normalization (Some connection_id) destination
    normalization_config workspace_id log
  = (inl (Some (operationId operation)),
     log ++ [operations_list connection_id]).
Proof.
  intros Hne Hon Hsupport Hfind Hid. rewrite reconcile_normalization_eq.
  cbn zeta. rewrite truthy_Some, Hfind by done.
  rewrite (bool_decide_eq_false_2 (normalization_config = Some false))
    by done.
  cbn [negb]. by rewrite Hsupport, truthy_Some.
Qed.

(** X15: without an existing connection, normalization that is not
    switched off is created on a destination that supports it, with one
    request; on a destination that does not support it nothing is sent:
    normalization that is required raises, and normalization left unset
    is skipped. *)
Theorem normalization_without_connection destination
    (normalization_config : option bool) (workspace_id : string) log :
  normalization_config ≠ Some false →
  let result :=
    reconcile_normalization None destination normalization_config
      workspace_id log in
  (does_dest_support_normalization destination workspace_id = true →
   result
   = (inl (Some (response_id (respond log (operations_create workspace_id)))),
      log ++ [operations_create workspace_id]))
  ∧ (does_dest_support_normalization destination workspace_id = false →
     result.2 = log
     ∧ (normalization_config = Some true → ∃ message,
          result.1 = inr (Exception message))
     ∧ (normalization_config = None → result.1 = inl None)).
Proof.
  intros Hon result. subst result. rewrite reconcile_normalization_eq.
  cbn zeta.
  rewrite (bool_decide_eq_false_2 (normalization_config = Some false))
    by done.
  cbn [negb truthy]. split.
  - by intros ->.
  - intros ->. destruct normalization_config as [[|]|].
    + rewrite bool_decide_eq_true_2 by done.
      split; [done|]. split; [by eexists | done].
    + done.
    + by rewrite bool_decide_eq_false_2.
Qed.
End normalization_props.

Section for_each_props.
Context {Config Operation Response Diff : Type}.
Context `{!Resource Config Operation Response Diff}.

(** A loop whose body never raises and sends the requests [g x] for the
    item [x]: it sends them item after item and keeps an invariant [R]
    of the items done and the state. *)
Lemma for_each_inv {S A : Type} (body : S → A → M S)
    (g : A → list (Request Config)) (R : list A → S → Prop) (xs : list A) :
  ∀ done st log,
    NoDup (done ++ xs) →
    R done st →
    (∀ done' x st' log',
       x ∈ xs → x ∉ done' → R done' st' →
       ∃ st'', body st' x log' = (inl st'', log' ++ g x)
               ∧ R (done' ++ [x]) st'') →
    ∃ st', for_each body st xs log = (inl st', log ++ concat (g <$> xs))
           ∧ R (done ++ xs) st'.
Proof.
  induction xs as [|x xs IH]; intros done st log Hnd HR Hbody.
  - exists st. cbn [for_each fmap list_fmap concat]. unfold ret.
    by rewrite !app_nil_r.
  - assert (x ∉ done) as Hx.
    { apply NoDup_app in Hnd as (_ & Hdisj & _).
      intros Hin. apply (Hdisj x Hin). left. }
    destruct (Hbody done x st log) as (st1 & Hst1 & HR1); [left | done..|].
    destruct (IH (done ++ [x]) st1 (log ++ g x)) as (st2 & Hst2 & HR2).
    + by rewrite <- app_assoc.
    + done.
    + intros done' x' st' log' Hx'. apply Hbody. by right.
    + exists st2. cbn [for_each]. unfold bind at 1. rewrite Hst1, Hst2.
      rewrite fmap_cons. cbn [concat].
      rewrite <- !app_assoc in *. done.
Qed.

Lemma elem_of_set_union (a b : list string) (x : string) :
  x ∈ set_union a b ↔ x ∈ a ∨ x ∈ b.
Proof. unfold set_union. by rewrite elem_of_remove_dups, elem_of_app. Qed.

Lemma NoDup_set_union (a b : list string) : NoDup (set_union a b).
Proof. apply NoDup_remove_dups. Qed.
End for_each_props.

Section sources_props.
Context {Config Operation Response Diff : Type}.
Context `{!Resource Config Operation Response Diff}.
Variable config_sources : dict string (AirbyteSource.t Config).
Variable existing_sources : dict string (InitializedAirbyteSource.t Config).
Variable workspace_id : string.
Variable dry_run : bool.

(** The requests of one iteration. *)
Let requests_for (name : string) : list (Request Config) :=
  match PyDict.get config_sources name, PyDict.get existing_sources name with
  | None, Some existing =>
      if dry_run then []
      else [sources_delete (InitializedAirbyteSource.source_id existing)]
  | Some configured, Some existing =>
      if dry_run then []
      else if source_must_be_recreated configured
                (InitializedAirbyteSource.source existing)
      then [sources_delete (InitializedAirbyteSource.source_id existing);
            sources_create
              (get_source_definition_by_name
                 (AirbyteSource.source_type configured) workspace_id)
              workspace_id (AirbyteSource.name configured)
              (AirbyteSource.source_configuration configured)]
      else [sources_update (InitializedAirbyteSource.source_id existing)
              (AirbyteSource.name configured)
              (AirbyteSource.source_configuration configured)]
  | Some configured, None =>
      if dry_run then []
      else [sources_create
              (get_source_definition_by_name
                 (AirbyteSource.source_type configured) workspace_id)
              workspace_id (AirbyteSource.name configured)
              (AirbyteSource.source_configuration configured)]
  | None, None => []
  end.

(** The entry of one name in the result. *)
Let entry_ok (name : string)
    (v : option (InitializedAirbyteSource.t Config)) : Prop :=
  match PyDict.get config_sources name, PyDict.get existing_sources name with
  | Some configured, existing =>
      ∃ i, v = Some i
           ∧ InitializedAirbyteSource.source i = configured
           ∧ InitializedAirbyteSource.source_definition_id i
             = get_source_definition_by_name
                 (AirbyteSource.source_type configured) workspace_id
           ∧ match existing with
             | Some existing =>
                 if source_must_be_recreated configured
                      (InitializedAirbyteSource.source existing)
                 then dry_run = true →
                      InitializedAirbyteSource.source_id i = "TBD"%string
                 else InitializedAirbyteSource.source_id i
                      = InitializedAirbyteSource.source_id existing
             | None =>
                 dry_run = true →
                 InitializedAirbyteSource.source_id i = "TBD"%string
             end
  | None, Some existing => v = Some existing
  | None, None => True
  end.

Lemma reconcile_sources_step_run st name log :
  name ∈ PyDict.keys config_sources ∨ name ∈ PyDict.keys existing_sources →
  ∃ st',
    reconcile_sources_step config_sources existing_sources workspace_id
      dry_run st name log
    = (inl st', log ++ requests_for name)
    ∧ (∃ v, PyDict.get st'.1 name = Some v ∧ entry_ok name v)
    ∧ (∀ k, k ≠ name → PyDict.get st'.1 k = PyDict.get st.1 k).
Proof.
  intros Hname. destruct st as [init diff].
  assert (is_Some (PyDict.get config_sources name)
          ∨ is_Some (PyDict.get existing_sources name)) as Hsome.
  { destruct Hname as [?|?]; [left | right]; by apply get_is_Some. }
  unfold reconcile_sources_step, diff_sources, requests_for, entry_ok.
  destruct (PyDict.get config_sources name) as [configured|];
    destruct (PyDict.get existing_sources name) as [existing|];
    cbn [fmap option_fmap option_map from_option].
  - destruct (diff_dicts _ _) as [[|] d]; cbn [negb];
      destruct (source_must_be_recreated configured
                  (InitializedAirbyteSource.source existing));
      destruct dry_run;
      unfold bind, ret, raise, make_request; cbn;
      rewrite ?app_nil_r, <- ?app_assoc;
      (eexists; split; [reflexivity|]; cbn [fst]; split;
       [eexists; split; [by rewrite ?get_set_eq|]; eexists; by repeat split
       |intros k Hk; by rewrite ?get_set_ne by done]).
  - destruct (diff_dicts _ _) as [[|] d]; cbn [negb];
      destruct dry_run;
      unfold bind, ret, raise, make_request; cbn;
      rewrite ?app_nil_r, <- ?app_assoc;
      (eexists; split; [reflexivity|]; cbn [fst]; split;
       [eexists; split; [by rewrite ?get_set_eq|]; eexists; by repeat split
       |intros k Hk; by rewrite ?get_set_ne by done]).
  - destruct (diff_dicts _ _) as [[|] d]; cbn [negb];
      destruct dry_run;
      unfold bind, ret, raise, make_request; cbn;
      rewrite ?app_nil_r, <- ?app_assoc;
      (eexists; split; [reflexivity|]; cbn [fst]; split;
       [eexists; split; [by rewrite ?get_set_eq | done]
       |intros k Hk; by rewrite ?get_set_ne by done]).
  - by destruct Hsome as [[? ?]|[? ?]].
Qed.

(** The whole loop: it never raises, sends the requests of the names one
    after the other and leaves one entry for each name. *)
Lemma reconcile_sources_run log :
  let names :=
    set_union (PyDict.keys config_sources) (PyDict.keys existing_sources) in
  ∃ init diff,
    reconcile_sources config_sources existing_sources workspace_id dry_run log
    = (inl (init, diff), log ++ concat (requests_for <$> names))
    ∧ (∀ name, name ∈ names →
               ∃ v, PyDict.get init name = Some v ∧ entry_ok name v)
    ∧ (∀ name, name ∉ names → PyDict.get init name = None).
Proof.
  intros names. unfold reconcile_sources. fold names.
  destruct (for_each_inv
              (reconcile_sources_step config_sources existing_sources
                 workspace_id dry_run)
              requests_for
              (λ done st,
                 (∀ name, name ∈ done →
                    ∃ v, PyDict.get st.1 name = Some v ∧ entry_ok name v)
                 ∧ (∀ name, name ∉ done → PyDict.get st.1 name = None))
              names [] ([], ManagedStackDiff_by_key) log)
    as ([init diff] & Hrun & Hin & Hout).
  - apply NoDup_set_union.
  - split; [by intros name ?%elem_of_nil | done].
  - intros done x st log' Hx Hxdone [Hin Hout].
    apply elem_of_set_union in Hx.
    destruct (reconcile_sources_step_run st x log' Hx)
      as (st' & Hstep & Hentry & Hother).
    exists st'. split; [done|]. split.
    + intros name [Hname|Hname]%elem_of_app.
      * rewrite Hother by (by intros ->). by apply Hin.
      * by apply list_elem_of_singleton in Hname as ->.
    + intros name Hname. rewrite Hother; [apply Hout|].
      * intros ?. apply Hname, elem_of_app. by left.
      * intros ->. apply Hname, elem_of_app. right. left.
  - exists init, diff. cbn [app] in *. done.
Qed.
Lemma elem_of_concat_fmap {A B : Type} (g : A → list B) (xs : list A)
    (y : B) :
  y ∈ concat (g <$> xs) ↔ ∃ x, x ∈ xs ∧ y ∈ g x.
Proof.
  induction xs as [|x xs IH].
  - split; [by intros ?%elem_of_nil | by intros (x & ?%elem_of_nil & _)].
  - rewrite fmap_cons. cbn [concat]. rewrite elem_of_app, IH. split.
    + intros [Hy|(x' & Hx' & Hy)].
      * exists x. split; [left | done].
      * exists x'. split; [by right | done].
    + intros (x' & [->|Hx']%elem_of_cons & Hy); [by left|].
      right. by exists x'.
Qed.


(** X17: the entry of a configured source holds that source and the id
    of its definition; it keeps the id of the existing source of the
    same name unless that one must be recreated, and in a dry run a
    source still to be created has the id [TBD].  An existing source
    that is not configured keeps its entry. *)
Theorem reconcile_sources_entries log init diff log' :
  reconcile_sources config_sources existing_sources workspace_id dry_run log
  = (inl (init, diff), log') →
  (∀ name configured,
     PyDict.get config_sources name = Some configured →
     ∃ i, PyDict.get init name = Some (Some i)
          ∧ InitializedAirbyteSource.source i = configured
          ∧ InitializedAirbyteSource.source_definition_id i
            = get_source_definition_by_name
                (AirbyteSource.source_type configured) workspace_id
          ∧ (∀ existing,
               PyDict.get existing_sources name = Some existing →
               source_must_be_recreated configured
                 (InitializedAirbyteSource.source existing) = false →
               InitializedAirbyteSource.source_id i
               = InitializedAirbyteSource.source_id existing)
          ∧ (dry_run = true →
             (∀ existing,
                PyDict.get existing_sources name = Some existing →
                source_must_be_recreated configured
                  (InitializedAirbyteSource.source existing) = true) →
             InitializedAirbyteSource.source_id i = "TBD"%string))
  ∧ (∀ name existing,
       PyDict.get config_sources name = None →
       PyDict.get existing_sources name = Some existing →
       PyDict.get init name = Some (Some existing)).
Proof.
  destruct (reconcile_sources_run log) as (init0 & diff0 & -> & Hin & _).
  intros [= <- <- <-]. split.
  - intros name configured Hc.
    destruct (Hin name) as (v & Hv & Hok).
    { apply elem_of_set_union. left. apply get_is_Some. by eexists. }
    unfold entry_ok in Hok. rewrite Hc in Hok.
    destruct Hok as (i & -> & Hsrc & Hdef & Hid).
    exists i. do 3 (split; [done|]). split.
    + intros existing He Hkeep. by rewrite He, Hkeep in Hid.
    + intros Hdry Hnew.
      destruct (PyDict.get existing_sources name) as [existing|];
        [|by apply Hid].
      rewrite (Hnew existing eq_refl) in Hid. by apply Hid.
  - intros name existing Hc He.
    destruct (Hin name) as (v & Hv & Hok).
    { apply elem_of_set_union. right. apply get_is_Some. by eexists. }
    unfold entry_ok in Hok. rewrite Hc, He in Hok. by rewrite Hv, Hok.
Qed.

(** X18: outside a dry run, the sources deleted are exactly the existing
    sources that are no longer configured or that must be recreated. *)
Theorem reconcile_sources_deletions log (id : string) :
  dry_run = false →
  let requests :=
    drop (length log)
      (reconcile_sources config_sources existing_sources workspace_id
         dry_run log).2 in
  sources_delete id ∈ requests ↔
  ∃ name existing,
    PyDict.get existing_sources name = Some existing
    ∧ InitializedAirbyteSource.source_id existing = id
    ∧ (PyDict.get config_sources name = None
       ∨ ∃ configured,
           PyDict.get config_sources name = Some configured
           ∧ source_must_be_recreated configured
               (InitializedAirbyteSource.source existing) = true).
Proof.
  intros Hdry requests. subst requests.
  destruct (reconcile_sources_run log) as (init & diff & -> & _).
  cbn [snd]. rewrite drop_app_length, elem_of_concat_fmap.
  unfold requests_for. rewrite Hdry. split.
  - intros (name & _ & Hreq). exists name.
    destruct (PyDict.get config_sources name) as [configured|],
             (PyDict.get existing_sources name) as [existing|].
    + destruct (source_must_be_recreated configured _) eqn:Hre.
      * apply elem_of_cons in Hreq as [[= ->]|Hreq].
        -- exists existing. do 2 (split; [done|]). right. by exists configured.
        -- by apply list_elem_of_singleton in Hreq.
      * by apply list_elem_of_singleton in Hreq.
    + by apply list_elem_of_singleton in Hreq.
    + apply list_elem_of_singleton in Hreq as [= ->].
      exists existing. do 2 (split; [done|]). by left.
    + by apply elem_of_nil in Hreq.
  - intros (name & existing & He & <- & Hwhy). exists name. split.
    { apply elem_of_set_union. right. apply get_is_Some. by eexists. }
    rewrite He. destruct Hwhy as [->|(configured & -> & ->)]; left.
Qed.

(** X19: outside a dry run every configured source is written: one that
    exists and can be kept is updated under its id, one that does not
    exist is created, and one that must be recreated is deleted and
    then created, the two requests following each other. *)
Theorem reconcile_sources_writes log name configured :
  dry_run = false →
  PyDict.get config_sources name = Some configured →
  let requests :=
    drop (length log)
      (reconcile_sources config_sources existing_sources workspace_id
         dry_run log).2 in
  let create :=
    sources_create
      (get_source_definition_by_name (AirbyteSource.source_type configured)
         workspace_id)
      workspace_id (AirbyteSource.name configured)
      (AirbyteSource.source_configuration configured) in
  match PyDict.get existing_sources name with
  | None => create ∈ requests
  | Some existing =>
      if source_must_be_recreated configured
           (InitializedAirbyteSource.source existing)
      then ∃ before after,
             requests
             = before
               ++ [sources_delete (InitializedAirbyteSource.source_id existing);
                   create]
               ++ after
      else sources_update (InitializedAirbyteSource.source_id existing)
             (AirbyteSource.name configured)
             (AirbyteSource.source_configuration configured) ∈ requests
  end.
Proof.
  intros Hdry Hc requests create. subst requests.
  destruct (reconcile_sources_run log) as (init & diff & -> & _).
  cbn [snd]. rewrite drop_app_length.
  set (names := set_union (PyDict.keys config_sources)
                  (PyDict.keys existing_sources)).
  assert (name ∈ names) as Hname.
  { apply elem_of_set_union. left. apply get_is_Some. by eexists. }
  assert (requests_for name =
            match PyDict.get existing_sources name with
            | None => [create]
            | Some existing =>
                if source_must_be_recreated configured
                     (InitializedAirbyteSource.source existing)
                then [sources_delete
                        (InitializedAirbyteSource.source_id existing); create]
                else [sources_update
                        (InitializedAirbyteSource.source_id existing)
                        (AirbyteSource.name configured)
                        (AirbyteSource.source_configuration configured)]
            end) as Hreq.
  { unfold requests_for. rewrite Hc, Hdry.
    by destruct (PyDict.get existing_sources name). }
  destruct (PyDict.get existing_sources name) as [existing|].
  - destruct (source_must_be_recreated configured _).
    + apply list_elem_of_split in Hname as (n1 & n2 & ->).
      rewrite fmap_app, fmap_cons, concat_app. cbn [concat].
      rewrite Hreq. by eexists _, _.
    + apply elem_of_concat_fmap. exists name. split; [done|].
      rewrite Hreq. left.
  - apply elem_of_concat_fmap. exists name. split; [done|].
    rewrite Hreq. left.
Qed.
End sources_props.

Section destinations_props.
Context {Config Operation Response Diff : Type}.
Context `{!Resource Config Operation Response Diff}.
Variable config_destinations : dict string (AirbyteDestination.t Config).
Variable existing_destinations :
  dict string (InitializedAirbyteDestination.t Config).
Variable workspace_id : string.
Variable dry_run : bool.

(** The requests of one iteration. *)
Let requests_for (name : string) : list (Request Config) :=
  match PyDict.get config_destinations name,
        PyDict.get existing_destinations name with
  | None, Some existing =>
      if dry_run then []
      else [destinations_delete
              (InitializedAirbyteDestination.destination_id existing)]
  | Some configured, Some existing =>
      if dry_run then []
      else [destinations_update
              (InitializedAirbyteDestination.destination_id existing)
              (AirbyteDestination.name configured)
              (AirbyteDestination.destination_configuration configured)]
  | Some configured, None =>
      if dry_run then []
      else [destinations_create
              (get_destination_definition_by_name
                 (AirbyteDestination.destination_type configured)
                 workspace_id)
              workspace_id (AirbyteDestination.name configured)
              (AirbyteDestination.destination_configuration configured)]
  | None, None => []
  end.

(** The entry of one name in the result. *)
Let entry_ok (name : string)
    (v : option (InitializedAirbyteDestination.t Config)) : Prop :=
  match PyDict.get config_destinations name,
        PyDict.get existing_destinations name with
  | Some configured, existing =>
      ∃ i, v = Some i
           ∧ InitializedAirbyteDestination.destination i = configured
           ∧ InitializedAirbyteDestination.destination_definition_id i
             = get_destination_definition_by_name
                 (AirbyteDestination.destination_type configured)
                 workspace_id
           ∧ match existing with
             | Some existing =>
                 InitializedAirbyteDestination.destination_id i
                 = InitializedAirbyteDestination.destination_id existing
             | None =>
                 dry_run = true →
                 InitializedAirbyteDestination.destination_id i
                 = "TBD"%string
             end
  | None, Some existing => v = Some existing
  | None, None => True
  end.

Lemma reconcile_destinations_step_run st name log :
  name ∈ PyDict.keys config_destinations
  ∨ name ∈ PyDict.keys existing_destinations →
  ∃ st',
    reconcile_destinations_step config_destinations existing_destinations
      workspace_id dry_run st name log
    = (inl st', log ++ requests_for name)
    ∧ (∃ v, PyDict.get st'.1 name = Some v ∧ entry_ok name v)
    ∧ (∀ k, k ≠ name → PyDict.get st'.1 k = PyDict.get st.1 k).
Proof.
  intros Hname. destruct st as [init diff].
  assert (is_Some (PyDict.get config_destinations name)
          ∨ is_Some (PyDict.get existing_destinations name)) as Hsome.
  { destruct Hname as [?|?]; [left | right]; by apply get_is_Some. }
  unfold reconcile_destinations_step, diff_destinations, requests_for,
    entry_ok.
  destruct (PyDict.get config_destinations name) as [configured|];
    destruct (PyDict.get existing_destinations name) as [existing|];
    cbn [fmap option_fmap option_map from_option].
  - destruct (diff_dicts _ _) as [[|] d]; cbn [negb];
      destruct dry_run;
      unfold bind, ret, raise, make_request; cbn;
      rewrite ?app_nil_r, <- ?app_assoc;
      (eexists; split; [reflexivity|]; cbn [fst]; split;
       [eexists; split; [by rewrite ?get_set_eq|]; eexists; by repeat split
       |intros k Hk; by rewrite ?get_set_ne by done]).
  - destruct (diff_dicts _ _) as [[|] d]; cbn [negb];
      destruct dry_run;
      unfold bind, ret, raise, make_request; cbn;
      rewrite ?app_nil_r, <- ?app_assoc;
      (eexists; split; [reflexivity|]; cbn [fst]; split;
       [eexists; split; [by rewrite ?get_set_eq|]; eexists; by repeat split
       |intros k Hk; by rewrite ?get_set_ne by done]).
  - destruct (diff_dicts _ _) as [[|] d]; cbn [negb];
      destruct dry_run;
      unfold bind, ret, raise, make_request; cbn;
      rewrite ?app_nil_r, <- ?app_assoc;
      (eexists; split; [reflexivity|]; cbn [fst]; split;
       [eexists; split; [by rewrite ?get_set_eq | done]
       |intros k Hk; by rewrite ?get_set_ne by done]).
  - by destruct Hsome as [[? ?]|[? ?]].
Qed.

Lemma reconcile_destinations_run log :
  let names :=
    set_union (PyDict.keys config_destinations)
      (PyDict.keys existing_destinations) in
  ∃ init diff,
    reconcile_destinations config_destinations existing_destinations
      workspace_id dry_run log
    = (inl (init, diff), log ++ concat (requests_for <$> names))
    ∧ (∀ name, name ∈ names →
               ∃ v, PyDict.get init name = Some v ∧ entry_ok name v)
    ∧ (∀ name, name ∉ names → PyDict.get init name = None).
Proof.
  intros names. unfold reconcile_destinations. fold names.
  destruct (for_each_inv
              (reconcile_destinations_step config_destinations
                 existing_destinations workspace_id dry_run)
              requests_for
              (λ done st,
                 (∀ name, name ∈ done →
                    ∃ v, PyDict.get st.1 name = Some v ∧ entry_ok name v)
                 ∧ (∀ name, name ∉ done → PyDict.get st.1 name = None))
              names [] ([], ManagedStackDiff_by_key) log)
    as ([init diff] & Hrun & Hin & Hout).
  - apply NoDup_set_union.
  - split; [by intros name ?%elem_of_nil | done].
  - intros done x st log' Hx Hxdone [Hin Hout].
    apply elem_of_set_union in Hx.
    destruct (reconcile_destinations_step_run st x log' Hx)
      as (st' & Hstep & Hentry & Hother).
    exists st'. split; [done|]. split.
    + intros name [Hname|Hname]%elem_of_app.
      * rewrite Hother by (by intros ->). by apply Hin.
      * by apply list_elem_of_singleton in Hname as ->.
    + intros name Hname. rewrite Hother; [apply Hout|].
      * intros ?. apply Hname, elem_of_app. by left.
      * intros ->. apply Hname, elem_of_app. right. left.
  - exists init, diff. cbn [app] in *. done.
Qed.


(** X21: a configured destination is never deleted.  Outside a dry run
    the destinations deleted are exactly the existing ones that are not
    configured; an existing destination that is configured is updated
    under its id, and its entry keeps that id. *)
Theorem reconcile_destinations_keeps_configured log :
  dry_run = false →
  let result :=
    reconcile_destinations config_destinations existing_destinations
      workspace_id dry_run log in
  let requests := drop (length log) result.2 in
  (∀ id, destinations_delete id ∈ requests ↔
         ∃ name existing,
           PyDict.get existing_destinations name = Some existing
           ∧ InitializedAirbyteDestination.destination_id existing = id
           ∧ PyDict.get config_destinations name = None)
  ∧ (∀ name configured existing,
       PyDict.get config_destinations name = Some configured →
       PyDict.get existing_destinations name = Some existing →
       destinations_update
         (InitializedAirbyteDestination.destination_id existing)
         (AirbyteDestination.name configured)
         (AirbyteDestination.destination_configuration configured)
       ∈ requests
       ∧ ∃ init diff i,
           result.1 = inl (init, diff)
           ∧ PyDict.get init name = Some (Some i)
           ∧ InitializedAirbyteDestination.destination i = configured
           ∧ InitializedAirbyteDestination.destination_id i
             = InitializedAirbyteDestination.destination_id existing).
Proof.
  intros Hdry result requests. subst requests result.
  destruct (reconcile_destinations_run log) as (init & diff & -> & Hin & _).
  cbn [fst snd]. rewrite drop_app_length. split.
  - intros id. rewrite elem_of_concat_fmap.
    unfold requests_for. rewrite Hdry. split.
    + intros (name & _ & Hreq). exists name.
      destruct (PyDict.get config_destinations name) as [configured|],
               (PyDict.get existing_destinations name) as [existing|].
      * by apply list_elem_of_singleton in Hreq.
      * by apply list_elem_of_singleton in Hreq.
      * apply list_elem_of_singleton in Hreq as [= ->]. by exists existing.
      * by apply elem_of_nil in Hreq.
    + intros (name & existing & He & <- & Hc). exists name. split.
      { apply elem_of_set_union. right. apply get_is_Some. by eexists. }
      rewrite He, Hc. left.
  - intros name configured existing Hc He.
    assert (name ∈ set_union (PyDict.keys config_destinations)
                     (PyDict.keys existing_destinations)) as Hname.
    { apply elem_of_set_union. left. apply get_is_Some. by eexists. }
    split.
    + apply elem_of_concat_fmap. exists name. split; [done|].
      unfold requests_for. rewrite Hc, He, Hdry. left.
    + destruct (Hin name Hname) as (v & Hv & Hok).
      unfold entry_ok in Hok. rewrite Hc, He in Hok.
      destruct Hok as (i & -> & Hdst & _ & Hid). by exists init, diff, i.
Qed.
End destinations_props.

End AirbyteProps.

(** * The further properties on runs of the code *)

Module MoreScenarios.
Import Store Airbyte Examples.

Lemma parent_updates_order_irrelevant_witness :
  let inst := event_store co_materialization [] in
  (∀ p, PyDict.get (_get_parent_updates inst "d" ["a"; "b"] 2 [] true) p
        = PyDict.get (_get_parent_updates inst "d" ["b"; "a"] 2 [] true) p)
  ∧ condition false
      (fst <$> PyDict.values (_get_parent_updates inst "d" ["a"; "b"] 2 []
                                true))
    = condition false
        (fst <$> PyDict.values (_get_parent_updates inst "d" ["b"; "a"] 2 []
                                  true)).
Proof.
  intros inst.
  apply (parent_updates_order_irrelevant inst "d" ["a"; "b"] ["b"; "a"] 2 []
           true false).
  apply perm_swap.
Defined.

Lemma parent_updates_entry_sound_witness :
  let inst := event_store co_materialization [] in
  (true = true →
   ("b" ∈ ([] : list string) ∧ 6%Q = 0%Q)
   ∨ ∃ e rest,
       get_event_records inst ASSET_MATERIALIZATION "b" = e :: rest
       ∧ 6%Q = timestamp e ∧ (3 < 6)%Q
       ∧ "e" ∉ asset_key <$> get_records_for_run inst (run_id e)
                               ASSET_MATERIALIZATION_PLANNED)
  ∧ (6%Q = 0%Q
     ∨ ∃ e rest,
         get_event_records inst ASSET_MATERIALIZATION "b" = e :: rest
         ∧ 6%Q = timestamp e ∧ (3 < 6)%Q).
Proof.
  intros inst.
  apply (parent_updates_entry_sound inst "e" ["b"; "c"] 3 [] true "b"
           true 6).
  vm_compute. reflexivity.
Defined.

Lemma parent_updates_without_wait_witness :
  _get_parent_updates (event_store c_in_flight []) "e" ["b"; "c"] 3 [] false
  = _get_parent_updates (event_store c_in_flight ["r4"]) "e" ["b"; "c"] 3 []
      false.
Proof.
  apply (parent_updates_without_wait (event_store c_in_flight [])
           (event_store c_in_flight ["r4"]) "e" ["b"; "c"] 3 []).
  - intros p. reflexivity.
  - intros r. reflexivity.
Defined.

Lemma run_request_in_topological_order_witness :
  let selection := asset_selection (request_for first_cursor ["e"; "d"; "f"]) in
  selection ≠ []
  ∧ selection `sublist_of`
      toposort_assets def_upstream [["c"; "a"; "b"]; ["e"; "d"]; ["f"]]
  ∧ NoDup selection
  ∧ (∀ a, a ∈ selection → a ∈ dom def_upstream)
  ∧ (∀ a b ps,
       a ∈ selection → b ∈ selection →
       def_upstream !! b = Some ps → a ∈ ps → a ≠ b →
       ∃ l1 l2 l3, selection = l1 ++ a :: l2 ++ b :: l3).
Proof.
  apply (run_request_in_topological_order def_upstream true true
           (context_of (event_store upstream_runs []) None)
           (written_context (event_store upstream_runs []) first_cursor)
           (request_for first_cursor ["e"; "d"; "f"])
           [["c"; "a"; "b"]; ["e"; "d"]; ["f"]]).
  - by vm_compute.
  - apply (bool_decide_unpack _). by vm_compute.
  - run_tick.
Defined.

Lemma child_rides_along_witness :
  let final :=
    sensor_loop def_upstream true true (event_store upstream_runs []) []
      (["e"; "d"] ++ "f" :: []) in
  "f" ∈ final.1
  ∧ ∃ m, PyDict.get final.2 (key_str "f") = Some m
         ∧ (m == PyDict.get_default [] (key_str "f") 0%Q)%Q.
Proof.
  apply (child_rides_along def_upstream true true
           (event_store upstream_runs []) [] ["e"; "d"] "f" []
           (key_str_inj : Inj (=) (=) (str (Externals := externals)))).
  - apply (bool_decide_unpack _). by vm_compute.
  - by vm_compute.
  - intros p Hp. vm_compute in Hp.
    each_member Hp; apply (bool_decide_unpack _); by vm_compute.
  - by vm_compute.
Defined.

Lemma unmaterialized_parent_blocks_child_witness :
  "y" ∉ ([] : list string).
Proof.
  apply (unmaterialized_parent_blocks_child y_upstream true
           (context_of (event_store x_run []) None)
           [] [(key_str "y", 0%Q)] "y" "source_asset").
  - by vm_compute.
  - apply (bool_decide_unpack _). by vm_compute.
  - apply (bool_decide_unpack _). by vm_compute.
  - reflexivity.
Defined.

Lemma any_mode_launches_on_fresh_parent_witness :
  "y" ∈ (sensor_loop y_upstream false true (event_store x_run []) []
           ([] ++ "y" :: [])).1.
Proof.
  apply (any_mode_launches_on_fresh_parent y_upstream true
           (event_store x_run []) [] [] "y" [] "x"
           {| run_id := "r1"; timestamp := 1; asset_key := "x" |} []
           (key_str_inj : Inj (=) (=) (str (Externals := externals)))).
  - apply (bool_decide_unpack _). by vm_compute.
  - right. intros q Hq _. vm_compute in Hq. each_member Hq; reflexivity.
  - apply (bool_decide_unpack _). by vm_compute.
  - apply not_elem_of_nil.
  - reflexivity.
  - by vm_compute.
  - apply (bool_decide_unpack _). by vm_compute.
Defined.

Lemma launched_cursor_covers_parents_witness :
  let final :=
    sensor_loop def_upstream true true (event_store upstream_runs []) []
      (["e"] ++ "d" :: ["f"]) in
  ∃ m, PyDict.get final.2 (key_str "d") = Some m ∧ (2 <= m)%Q.
Proof.
  apply (launched_cursor_covers_parents def_upstream true true
           (event_store upstream_runs []) [] ["e"] "d" ["f"] "b"
           {| run_id := "r2"; timestamp := 2; asset_key := "b" |} []
           (key_str_inj : Inj (=) (=) (str (Externals := externals)))).
  - apply (bool_decide_unpack _). by vm_compute.
  - apply (bool_decide_unpack _). by vm_compute.
  - apply (bool_decide_unpack _). by vm_compute.
  - reflexivity.
  - apply (bool_decide_unpack _). by vm_compute.
Defined.

Lemma all_mode_stricter_than_any_witness :
  launches def_upstream false true (event_store upstream_runs []) [] [] "d"
  = true.
Proof.
  apply (all_mode_stricter_than_any def_upstream true
           (event_store upstream_runs []) [] [] "d").
  - by vm_compute.
  - by vm_compute.
Defined.

(** The connection [conn-2] has no basic normalization operation. *)
Lemma normalization_without_operation_raises_witness :
  reconcile_normalization (Some "conn-2")
    (an_existing_destination "d2" "postgres" "host=k" "id-d2") (Some true)
    "ws" []
  = (inr TypeError, [] ++ [operations_list "conn-2"]).
Proof.
  apply (AirbyteProps.normalization_without_operation_raises "conn-2"
           (an_existing_destination "d2" "postgres" "host=k" "id-d2")
           (Some true) "ws" []).
  - by vm_compute.
  - reflexivity.
Defined.

Lemma normalization_not_created_witness :
  let log' :=
    (reconcile_normalization (Some "conn-1")
       (an_existing_destination "d3" "local-json" "dir=/y" "id-d3") None
       "ws" []).2 in
  log' = []
  ∨ ∃ connection_id,
      Some "conn-1" = Some connection_id
      ∧ log' = [] ++ [operations_list connection_id].
Proof.
  apply (AirbyteProps.normalization_not_created (Some "conn-1")
           (an_existing_destination "d3" "local-json" "dir=/y" "id-d3") None
           "ws" []).
  right. reflexivity.
Defined.

Lemma normalization_reuses_operation_witness :
  reconcile_normalization (Some "conn-1")
    (an_existing_destination "d2" "postgres" "host=k" "id-d2") None "ws" []
  = (inl (Some "op-7"), [] ++ [operations_list "conn-1"]).
Proof.
  change (Some "op-7") with (Some (operationId ("op-7", true))).
  apply (AirbyteProps.normalization_reuses_operation "conn-1"
           (an_existing_destination "d2" "postgres" "host=k" "id-d2") None
           "ws" [] ("op-7", true)).
  - by vm_compute.
  - by vm_compute.
  - reflexivity.
  - reflexivity.
  - by vm_compute.
Defined.

Lemma normalization_without_connection_witness :
  reconcile_normalization None
    (an_existing_destination "d2" "postgres" "host=k" "id-d2") (Some true)
    "ws" []
  = (inl (Some "op-new"), [] ++ [operations_create "ws"]).
Proof.
  refine (proj1
    (AirbyteProps.normalization_without_connection
       (an_existing_destination "d2" "postgres" "host=k" "id-d2") (Some true)
       "ws" [] _) _).
  - by vm_compute.
  - reflexivity.
Defined.

Lemma reconcile_sources_entries_witness :
  ∃ init diff log',
    reconcile_sources config_sources existing_sources "ws" true []
    = (inl (init, diff), log')
    ∧ PyDict.get init "s3"
      = Some (Some (an_existing_source "s3" "file" "path=/c" "id-3")).
Proof.
  eexists _, _, _. split; [vm_compute; reflexivity|].
  refine (proj2
    (AirbyteProps.reconcile_sources_entries config_sources existing_sources
       "ws" true [] _ _ _ _) "s3" _ _ _).
  - vm_compute. reflexivity.
  - reflexivity.
  - reflexivity.
Defined.

Lemma reconcile_sources_deletions_witness :
  sources_delete "id-2"
  ∈ drop (length ([] : list (Request string)))
      (reconcile_sources config_sources existing_sources "ws" false []).2.
Proof.
  apply (AirbyteProps.reconcile_sources_deletions config_sources
           existing_sources "ws" false [] "id-2").
  - reflexivity.
  - exists "s2", (an_existing_source "s2" "mysql" "host=h" "id-2").
    split; [reflexivity|]. split; [reflexivity|].
    right. exists (a_source "s2" "postgres" "host=h").
    split; reflexivity.
Defined.

Lemma reconcile_sources_writes_witness :
  sources_update "id-4" "s4" "path=/new"
  ∈ drop (length ([] : list (Request string)))
      (reconcile_sources config_sources existing_sources "ws" false []).2.
Proof.
  exact (AirbyteProps.reconcile_sources_writes config_sources
           existing_sources "ws" false [] "s4"
           (a_source "s4" "file" "path=/new") eq_refl eq_refl).
Defined.

Lemma reconcile_destinations_keeps_configured_witness :
  destinations_update "id-d2" "d2" "host=k"
  ∈ drop (length ([] : list (Request string)))
      (reconcile_destinations config_destinations existing_destinations "ws"
         false []).2.
Proof.
  refine (proj1 (proj2
    (AirbyteProps.reconcile_destinations_keeps_configured config_destinations
       existing_destinations "ws" false [] _) "d2"
       (a_destination "d2" "postgres" "host=k")
       (an_existing_destination "d2" "local-json" "dir=/x" "id-d2") _ _)).
  - reflexivity.
  - reflexivity.
  - reflexivity.
Defined.

End MoreScenarios.
